(** * whisperai: the transcription route, the result view and the scoring rules

    A shallow embedding of
    - the POST handler of the transcription route (the file with
      [runPythonScript], [analyzeSentiment], [saveAnalysisToHistory], [POST]),
    - the score cards of [src/components/TranscriptionResult.tsx],
    - the scoring rules of the analytics engine, which the repository keeps
      in its Python backend.

    The handler talks to the outside world (request body, clock, file system,
    child process, language model).  Every such call is an explicit step of a
    small state-and-exception monad; what the outside world answers is read
    from an [Env] record, one field per call site. *)

From Stdlib Require Import QArith Qabs Qminmax Qround Lqa.
From stdpp Require Import base option list strings pretty gmap.

#[local] Set Warnings "-register-all".

Local Open Scope string_scope.
Local Open Scope list_scope.

(** ** JSON values, as [JSON.parse] returns them *)

Module Json.

(** A number is kept as the text JavaScript prints for it ([String(n)]), which
    determines the double.  The handler never computes with the numbers of
    the provider's result; it only tests them for truthiness and prints
    them. *)
Inductive json : Type :=
| JNull
| JBool (b : bool)
| JNum (repr : string)
| JStr (s : string)
| JArr (items : list json)
| JObj (fields : list (string * json)).

(** An object is its list of own properties in enumeration order. *)
Abbreviation obj := (list (string * json)).

(** [o.k]; [None] is JavaScript's [undefined]. *)
Fixpoint get (k : string) (o : obj) : option json :=
  match o with
  | [] => None
  | (k', v) :: o' => if String.eqb k k' then Some v else get k o'
  end.

(** [{...o, k: v}]: the copy of [o] with [k] defined last; a key that [o]
    already has keeps its place and takes the new value. *)
Fixpoint set (k : string) (v : json) (o : obj) : obj :=
  match o with
  | [] => [(k, v)]
  | (k', v') :: o' =>
      if String.eqb k k' then (k, v) :: o' else (k', v') :: set k v o'
  end.

(** JavaScript truthiness of a parsed value. *)
Definition truthy (v : json) : bool :=
  match v with
  | JNull => false
  | JBool b => b
  | JNum r => negb (String.eqb r "0")
  | JStr s => negb (String.eqb s "")
  | JArr _ | JObj _ => true
  end.

Definition truthy_opt (v : option json) : bool :=
  match v with Some v => truthy v | None => false end.

Definition join_comma (l : list string) : string :=
  match l with
  | [] => ""
  | s :: l' => fold_left (fun acc t => acc +:+ "," +:+ t) l' s
  end.

(** [String(v)], as [new Error(v)] and template strings apply it. *)
Fixpoint to_String (v : json) : string :=
  match v with
  | JNull => "null"
  | JBool true => "true"
  | JBool false => "false"
  | JNum r => r
  | JStr s => s
  | JArr items =>
      join_comma
        (map (fun x => match x with JNull => "" | _ => to_String x end) items)
  | JObj _ => "[object Object]"
  end.

End Json.
Import Json.

(** ** Thrown values, events and the store *)

Module Route.

(** What a [catch] clause may receive: an [Error] instance with its [name]
    and [message], or any other value. *)
Inductive thrown : Type :=
| ThrownError (name message : string)
| ThrownOther (v : json).

Definition mkError (message : string) : thrown := ThrownError "Error" message.

(** [String(e)] for a caught value. *)
Definition thrown_to_String (e : thrown) : string :=
  match e with
  | ThrownError n m => n +:+ ": " +:+ m
  | ThrownOther v => to_String v
  end.

(** A path is its list of components below the root; [join] appends. *)
Abbreviation path := (list string).

Definition join (dir : path) (name : string) : path := dir ++ [name].

(** A file holds the bytes of an upload or the text of a JSON document; the
    latter is kept as the document [JSON.stringify] printed. *)
Inductive content : Type :=
| Bytes (data : list Byte.byte)
| JsonText (doc : obj).

Inductive level : Type := LogInfo | LogError.

Inductive event : Type :=
| ELog (l : level) (msg : string)
| EWriteFile (p : path)
| EMkdir (p : path)
| EUnlink (p : path)
| ESpawn (script audio : path)
| EChat (text : option json).

(** The handler's state: the files on disk, the effects issued so far (oldest
    first) and the local [tempAudioPath], which the [catch] block reads. *)
Record state : Type := mkState {
  files : gmap path content;
  trace : list event;
  tempAudioPath : option path
}.

(** ** The monad: state and exceptions *)

Inductive result (A : Type) : Type :=
| Ok (a : A)
| Throw (e : thrown).
Arguments Ok {A} a.
Arguments Throw {A} e.

Definition M (A : Type) : Type := state -> result A * state.

Definition ret {A} (a : A) : M A := fun st => (Ok a, st).

Definition bind {A B} (m : M A) (k : A -> M B) : M B :=
  fun st =>
    match m st with
    | (Ok a, st') => k a st'
    | (Throw e, st') => (Throw e, st')
    end.

Definition throw {A} (e : thrown) : M A := fun st => (Throw e, st).

(** [try { m } catch (e) { h e }] *)
Definition try_catch {A} (m : M A) (h : thrown -> M A) : M A :=
  fun st =>
    match m st with
    | (Ok a, st') => (Ok a, st')
    | (Throw e, st') => h e st'
    end.

Declare Scope route_scope.
Delimit Scope route_scope with route.
Notation "x <- m ;; k" := (bind m (fun x => k))
  (at level 100, m at next level, right associativity) : route_scope.
Notation "m ;; k" := (bind m (fun _ => k))
  (at level 100, right associativity) : route_scope.
Local Open Scope route_scope.

Definition emit (ev : event) : M unit :=
  fun st => (Ok tt, mkState (files st) (trace st ++ [ev]) (tempAudioPath st)).

Definition console_log (msg : string) : M unit := emit (ELog LogInfo msg).
Definition console_error (msg : string) : M unit := emit (ELog LogError msg).

Definition set_tempAudioPath (p : path) : M unit :=
  fun st => (Ok tt, mkState (files st) (trace st) (Some p)).

Definition get_tempAudioPath : M (option path) :=
  fun st => (Ok (tempAudioPath st), st).

(** An awaited call that the environment may reject. *)
Definition await {A} (r : thrown + A) : M A :=
  match r with inl e => throw e | inr a => ret a end.

(** ** File system calls

    Each call site has a fault of its own in the environment: [Some e] makes
    the call reject with [e] and leave the files as they are. *)

(** [writeFile(p, c)]: creates the file or replaces its content. *)
Definition writeFile (fault : option thrown) (p : path) (c : content) : M unit :=
  emit (EWriteFile p) ;;
  match fault with
  | Some e => throw e
  | None => fun st =>
      (Ok tt, mkState (<[p := c]> (files st)) (trace st) (tempAudioPath st))
  end.

(** [mkdir(p, { recursive: true })]: directories are not part of the store;
    the call is traced and may reject. *)
Definition mkdir (fault : option thrown) (p : path) : M unit :=
  emit (EMkdir p) ;;
  match fault with
  | Some e => throw e
  | None => ret tt
  end.

Definition ENOENT : thrown :=
  ThrownError "Error" "ENOENT: no such file or directory, unlink".

(** [unlink(p)]: rejects with ENOENT when there is no such file. *)
Definition unlink (fault : option thrown) (p : path) : M unit :=
  emit (EUnlink p) ;;
  match fault with
  | Some e => throw e
  | None => fun st =>
      match files st !! p with
      | None => (Throw ENOENT, st)
      | Some _ =>
          (Ok tt, mkState (delete p (files st)) (trace st) (tempAudioPath st))
      end
  end.


(** ** The request and the environment *)

(** A [File] of the form data: what the handler reads of it. *)
Record File : Type := mkFile {
  file_name : string;
  file_type : string;
  file_size : N;
  file_arrayBuffer : list Byte.byte
}.

Inductive form_entry : Type :=
| FormString (s : string)
| FormFile (f : File).

(** [formData.get(k)]: the first entry of that name, [None] for [null]. *)
Fixpoint form_get (k : string) (fd : list (string * form_entry))
  : option form_entry :=
  match fd with
  | [] => None
  | (k', v) :: fd' => if String.eqb k k' then Some v else form_get k fd'
  end.

(** [request.formData()] rejects when the body is not form data. *)
Record Request : Type := mkRequest {
  formData : thrown + list (string * form_entry)
}.

(** What the child process printed, as [runPythonScript] sees it: no brace
    pair at all, a brace pair that [JSON.parse] rejects (with the message of
    its SyntaxError), or an object. *)
Inductive stdout_json : Type :=
| NoJson
| BadJson (syntax_error : string)
| Json (result : obj).

Inductive py_outcome : Type :=
| PySpawnError (err : thrown)
| PyClose (code : option Z) (stderr : string) (stdout : stdout_json).

Record Env : Type := mkEnv {
  cwd : path;                        (* process.cwd() *)
  now_tmp : N;                       (* Date.now() in POST *)
  now_hist : N;                      (* Date.now() in saveAnalysisToHistory *)
  write_tmp_fault : option thrown;   (* writeFile(tempAudioPath, ..) *)
  python : py_outcome;               (* the transcription child process *)
  chat : thrown + option string;     (* choices[0].message.content *)
  mkdir_fault : option thrown;       (* mkdir(historyDir) *)
  write_hist_fault : option thrown;  (* writeFile(join(historyDir, ..)) *)
  unlink_fault : option thrown;      (* unlink on the success path *)
  cleanup_fault : option thrown      (* unlink in the catch block *)
}.

Definition nl : string := String (Ascii.ascii_of_nat 10) "".

(** ** runPythonScript *)

Definition show_code (code : option Z) : string :=
  match code with Some c => pretty c | None => "null" end.

(** The trace ends where the promise settles.  After a failed spawn Node
    still emits [close], whose handler logs once more while the [catch]
    block of [POST] is already running; that late message is not traced. *)
Definition runPythonScript (env : Env) (scriptPath audioPath : path) : M obj :=
  console_log "Starting Python process with:" ;;
  emit (ESpawn scriptPath audioPath) ;;
  match python env with
  | PySpawnError err =>
      console_error "Failed to start Python process:" ;;
      throw err
  | PyClose code stderr stdout =>
      (if String.eqb stderr "" then ret tt else console_error "Python stderr:") ;;
      console_log "Python process exited with code:" ;;
      match code with
      | Some 0%Z =>
          match stdout with
          | Json result => ret result
          | NoJson =>
              console_error "Raw stdout:" ;;
              throw (mkError ("Failed to parse Python output: "
                              +:+ thrown_to_String
                                    (mkError "No JSON found in output")))
          | BadJson msg =>
              console_error "Raw stdout:" ;;
              throw (mkError ("Failed to parse Python output: "
                              +:+ thrown_to_String
                                    (ThrownError "SyntaxError" msg)))
          end
      | _ =>
          throw (mkError ("Python process exited with code " +:+ show_code code
                          +:+ nl +:+ "Error: " +:+ stderr))
      end
  end.

(** ** analyzeSentiment *)

Definition analyzeSentiment (env : Env) (text : option json) : M string :=
  emit (EChat text) ;;
  content <- await (chat env) ;;
  ret (match content with
       | Some s => if String.eqb s "" then "No sentiment analysis available" else s
       | None => "No sentiment analysis available"
       end).

(** ** saveAnalysisToHistory *)

Definition historyDir (env : Env) : path := join (cwd env) "history".

Definition history_filename (now : N) : string :=
  "analysis_" +:+ pretty now +:+ ".json".

Definition history_path (env : Env) : path :=
  join (historyDir env) (history_filename (now_hist env)).

Definition saveAnalysisToHistory (env : Env) (result : obj) : M unit :=
  try_catch
    (mkdir (mkdir_fault env) (historyDir env) ;;
     writeFile (write_hist_fault env) (history_path env) (JsonText result))
    (fun error => console_error "Failed to save analysis to history:").

(** ** POST *)

Record response : Type := mkResponse {
  status : N;
  body : json
}.

(** [NextResponse.json(body)] and [NextResponse.json(body, { status })]. *)
Definition NextResponse_json (body : json) (status : N) : response :=
  mkResponse status body.

Definition error_body (msg : string) : json := JObj [("error", JStr msg)].

Definition tempDir : path := ["tmp"].

Definition temp_filename (now : N) : string :=
  "audio-" +:+ pretty now +:+ ".wav".

Definition temp_path (env : Env) : path :=
  join tempDir (temp_filename (now_tmp env)).

Definition pythonScript (env : Env) : path :=
  join (join (cwd env) "python_backend") "transcribe.py".

(** [!audioFile] for what [formData.get] returned. *)
Definition no_audio (audioFile : option form_entry) : bool :=
  match audioFile with
  | None => true
  | Some (FormString s) => String.eqb s ""
  | Some (FormFile _) => false
  end.

(** [result.error || 'Transcription failed'], as the message of the [Error]. *)
Definition failure_message (result : obj) : string :=
  match get "error" result with
  | Some v => if truthy v then to_String v else "Transcription failed"
  | None => "Transcription failed"
  end.

Definition POST_try (env : Env) (request : Request) : M response :=
  console_log "Processing audio transcription request..." ;;
  fd <- await (formData request) ;;
  let audioFile := form_get "audio" fd in
  if no_audio audioFile then
    console_log "No audio file provided" ;;
    ret (NextResponse_json (error_body "No audio file provided") 400)
  else
    console_log "Received audio file:" ;;
    audioBuffer <-
      match audioFile with
      | Some (FormFile f) => ret (file_arrayBuffer f)
      | _ => throw (ThrownError "TypeError"
                      "audioFile.arrayBuffer is not a function")
      end ;;
    set_tempAudioPath (temp_path env) ;;
    writeFile (write_tmp_fault env) (temp_path env) (Bytes audioBuffer) ;;
    console_log "Saved temporary file at:" ;;
    console_log "Starting transcription with Python script at:" ;;
    result <- runPythonScript env (pythonScript env) (temp_path env) ;;
    console_log "Raw transcription result:" ;;
    (if truthy_opt (get "success" result) then ret tt
     else throw (mkError (failure_message result))) ;;
    console_log "Transcription successful, starting sentiment analysis..." ;;
    sentiment <- analyzeSentiment env (get "transcription" result) ;;
    let finalResult := set "sentiment" (JStr sentiment) result in
    saveAnalysisToHistory env finalResult ;;
    tmp <- get_tempAudioPath ;;
    match tmp with
    | Some p =>
        unlink (unlink_fault env) p ;;
        console_log "Cleaned up temporary file:"
    | None => ret tt
    end ;;
    ret (NextResponse_json (JObj finalResult) 200).

(** [error instanceof Error ? error.message : 'Unknown error occurred'] *)
Definition error_message (error : thrown) : string :=
  match error with
  | ThrownError _ m => m
  | ThrownOther _ => "Unknown error occurred"
  end.

Definition POST_catch (env : Env) (error : thrown) : M response :=
  console_error "Error in transcription process:" ;;
  tmp <- get_tempAudioPath ;;
  match tmp with
  | Some p =>
      try_catch
        (unlink (cleanup_fault env) p ;;
         console_log "Cleaned up temporary file:")
        (fun cleanupError => console_error "Failed to clean up temporary file:")
  | None => ret tt
  end ;;
  ret (NextResponse_json (error_body (error_message error)) 500).

Definition POST_M (env : Env) (request : Request) : M response :=
  try_catch (POST_try env request) (POST_catch env).

(** A run of the handler on the files [fs], from an empty trace and with
    [tempAudioPath] not yet assigned. *)
Definition POST (env : Env) (request : Request) (fs : gmap path content)
  : result response * state :=
  POST_M env request (mkState fs [] None).

End Route.

(** ** The score cards of TranscriptionResult.tsx *)

Module View.

Local Open Scope Q_scope.

(** The props are typed [number]; the cards only multiply and round them, so
    a number is a rational here.  Products and quotients are exact: a score
    whose product with 100 a double would round is outside this model. *)
Record HistoricalScore : Type := mkHistoricalScore {
  score : Q;
  timestamp : string
}.

Record SpeakerHistory : Type := mkSpeakerHistory {
  current_pace : Q;
  historical_avg_pace : Q;
  difference : Q;
  historical_scores : list HistoricalScore;
  average_historical_score : Q
}.

Record SpeakerScores : Type := mkSpeakerScores {
  pace_score : Q;
  confidence_score : Q;
  pause_score : Q;
  overall_score : Q;
  historical_comparison : option SpeakerHistory
}.

Record Comparison : Type := mkComparison {
  comparison_overall_score : Q;
  speaker_scores : list (string * SpeakerScores);
  improvement_suggestions : list (string * list string)
}.

(** [Math.round]: the nearest integer, halves upwards. *)
Definition Math_round (x : Q) : Z := Qfloor (x + (1 # 2)).

(** What a card prints: a label, a number and the unit written after it. *)
Record card : Type := mkCard {
  label : string;
  shown : Q;
  unit_suffix : string
}.

(** [comparison.speaker_scores[speaker]], for a speaker label that is not
    the name of a member of [Object.prototype] (for which the JavaScript
    lookup finds the inherited member). *)
Fixpoint lookup_speaker (speaker : string) (l : list (string * SpeakerScores))
  : option SpeakerScores :=
  match l with
  | [] => None
  | (k, v) :: l' => if String.eqb speaker k then Some v else lookup_speaker speaker l'
  end.

(** The "Performance Scores" block inside a speaker's analytics card:
    [Math.round(score * 100)] followed by a per cent sign. *)
Definition performance_scores (s : SpeakerScores) : list card :=
  [ mkCard "Pace Score" (inject_Z (Math_round (pace_score s * 100))) "%";
    mkCard "Confidence Score" (inject_Z (Math_round (confidence_score s * 100))) "%";
    mkCard "Pause Score" (inject_Z (Math_round (pause_score s * 100))) "%" ].

(** The block is rendered for the speakers of [speaker_stats] that
    [comparison.speaker_scores] knows. *)
Definition analytics_scores (speakers : list string) (comparison : option Comparison)
  : list (string * list card) :=
  match comparison with
  | None => []
  | Some c =>
      omap (fun speaker =>
              match lookup_speaker speaker (speaker_scores c) with
              | Some s => Some (speaker, performance_scores s)
              | None => None
              end) speakers
  end.

(** The "<speaker> Performance" block at the end of the component: the
    number as it is, followed by [/10]. *)
Definition speaker_performance (s : SpeakerScores) : list card :=
  [ mkCard "Pace Score" (pace_score s) "/10";
    mkCard "Confidence Score" (confidence_score s) "/10";
    mkCard "Pause Score" (pause_score s) "/10";
    mkCard "Overall Score" (overall_score s) "/10" ].

Definition performance_blocks (comparison : option Comparison)
  : list (string * list card) :=
  match comparison with
  | None => []
  | Some c => map (fun '(speaker, s) => (speaker, speaker_performance s))
                  (speaker_scores c)
  end.

(** The 0-1 fraction a card stands for: a percentage is the fraction times
    100, a mark out of ten is the fraction times 10. *)
Definition fraction_of (c : card) : option Q :=
  if String.eqb (unit_suffix c) "%" then Some (shown c / 100)
  else if String.eqb (unit_suffix c) "/10" then Some (shown c / 10)
  else None.

(** The card of a block with a given label. *)
Definition card_of (l : string) (cards : list card) : option card :=
  List.find (fun c => String.eqb (label c) l) cards.

End View.

(** ** The scoring engine

    The scores are exact rationals here; rounding of floating-point
    arithmetic is outside this model. *)

Module Scoring.

Local Open Scope Q_scope.

(** Modelled from the spec: a notable pause of the missing aggregator, its
    length and the start of the segment that follows it. *)
Record Pause : Type := mkPause {
  duration : Q;
  position : Q
}.

(** Modelled from the spec: the SpeakerStats entity of the missing Python
    backend. *)
Record SpeakerStats : Type := mkSpeakerStats {
  word_count : Z;
  total_duration : Q;
  words_per_minute : Q;
  average_confidence : Q;
  pauses : list Pause
}.

(** Modelled from the spec: the ScoringConfig options of the engine's
    input, which the missing backend would read. *)
Record ScoringConfig : Type := mkScoringConfig {
  ideal_pace_wpm : Q;
  pace_low : Q;
  pace_high : Q;
  weight_pace : Q;
  weight_confidence : Q;
  weight_pause : Q;
  pause_threshold_s : Q;
  history_top_n : nat;
  history_top_k : nat
}.

(** Modelled from the spec: the defaults of the missing engine, ideal
    pace 150 wpm, bounds (80, 220), weights (0.4, 0.3, 0.3), pause threshold
    1.0 s, top-N 5 and top-K 3. *)
Definition default_config : ScoringConfig :=
  mkScoringConfig 150 80 220 (4 # 10) (3 # 10) (3 # 10) 1 5 3.

(** Modelled from the spec: the numeric part of the Score entity of the
    missing engine. *)
Record Score : Type := mkScore {
  pace_score : Q;
  confidence_score : Q;
  pause_score : Q;
  overall_score : Q
}.

(** Modelled from the spec: the two fatal errors of the missing engine. *)
Inductive EngineError : Type :=
| InvalidSegmentError (message : string)
| InvalidConfigError (message : string).

(** Modelled from the spec: half the distance between the pace bounds of
    the missing engine, 70 wpm for the defaults. *)
Definition half_range (c : ScoringConfig) : Q := (pace_high c - pace_low c) / 2.

(** Modelled from the spec: the missing engine's pace rule,
    [pace_score = max(0, 1 - |wpm - ideal| / half_range)]. *)
Definition pace_score_of (c : ScoringConfig) (wpm : Q) : Q :=
  Qmax 0 (1 - Qabs (wpm - ideal_pace_wpm c) / half_range c).

(** Modelled from the spec: the missing engine's confidence rule,
    [confidence_score = average_confidence] directly. *)
Definition confidence_score_of (st : SpeakerStats) : Q := average_confidence st.

(** Modelled from the spec: the [sum_of_pause_durations] of the missing
    engine's pause rule. *)
Definition sum_durations (ps : list Pause) : Q :=
  fold_right (fun p acc => duration p + acc) 0 ps.

(** Modelled from the spec: the missing engine's pause rule: start at 1,
    subtract [min(0.5, 0.05 * count)] and [min(0.5, sum / total_duration)],
    floor at 0.  The specification does not say what the quotient is for
    a total duration of 0; the rational quotient is 0 there. *)
Definition pause_score_of (st : SpeakerStats) : Q :=
  Qmax 0 (1 - Qmin (1 # 2) ((5 # 100) * inject_Z (Z.of_nat (length (pauses st))))
            - Qmin (1 # 2) (sum_durations (pauses st) / total_duration st)).

(** Modelled from the spec: the missing engine's weighted combination. *)
Definition overall_score_of (c : ScoringConfig) (p cf pz : Q) : Q :=
  weight_pace c * p + weight_confidence c * cf + weight_pause c * pz.

(** Modelled from the spec: the missing engine's configuration check:
    the weights sum to 1 and the bounds are not inverted.  Coincident bounds
    are rejected too, since the pace rule divides by half their distance. *)
Definition config_ok (c : ScoringConfig) : bool :=
  Qeq_bool (weight_pace c + weight_confidence c + weight_pause c) 1
  && negb (Qle_bool (pace_high c) (pace_low c)).

(** Modelled from the spec: the pure function [score(stats, config)] of
    the missing engine; it fails with InvalidConfigError on a configuration
    that does not pass the check. *)
Definition score (st : SpeakerStats) (c : ScoringConfig) : EngineError + Score :=
  if config_ok c then
    let p := pace_score_of c (words_per_minute st) in
    let cf := confidence_score_of st in
    let pz := pause_score_of st in
    inr (mkScore p cf pz (overall_score_of c p cf pz))
  else inl (InvalidConfigError "weights must sum to 1 and bounds must be ordered").

(** Modelled from the spec: what the missing aggregator guarantees of the
    statistics it hands to the scoring engine: a mean of confidences in
    [0,1], a non-negative total duration and clamped, non-negative pauses. *)
Definition valid_stats (st : SpeakerStats) : Prop :=
  0 <= average_confidence st <= 1 /\
  0 <= total_duration st /\
  Forall (fun p => 0 <= duration p) (pauses st).

(** The closed interval [0,1]. *)
Definition in_unit (x : Q) : Prop := 0 <= x <= 1.

End Scoring.

(** ** Vocabulary of the statements *)

Module Props.
Import Route.

Definition is_log (ev : event) : bool :=
  match ev with ELog _ _ => true | _ => false end.

(** The environment [env] with the two calls of the history append answering
    [m] (for [mkdir]) and [w] (for [writeFile]). *)
Definition with_history_faults (m w : option thrown) (env : Env) : Env :=
  mkEnv (cwd env) (now_tmp env) (now_hist env) (write_tmp_fault env)
        (python env) (chat env) m w (unlink_fault env) (cleanup_fault env).

(** The environment [env] with the cleanup of the [catch] block answering [c]. *)
Definition with_cleanup_fault (c : option thrown) (env : Env) : Env :=
  mkEnv (cwd env) (now_tmp env) (now_hist env) (write_tmp_fault env)
        (python env) (chat env) (mkdir_fault env) (write_hist_fault env)
        (unlink_fault env) c.

Definition history_warning : event :=
  ELog LogError "Failed to save analysis to history:".

(** The path of the history record with time stamp [t]. *)
Definition record_path (env : Env) (t : N) : path :=
  join (historyDir env) (history_filename t).

(** The three helpers of the handler only append to the trace; what they
    return, write and log is read off a run from the empty state. *)
Definition st0 : state := mkState ∅ [] None.

Definition py_result (env : Env) : result obj :=
  (runPythonScript env [] [] st0).1.

Definition py_trace (env : Env) (script audio : path) : list event :=
  trace (runPythonScript env script audio st0).2.

Definition sentiment_result (env : Env) : result string :=
  (analyzeSentiment env None st0).1.

Definition saved_files (env : Env) (r : obj) (fs : gmap path content)
  : gmap path content :=
  files (saveAnalysisToHistory env r (mkState fs [] None)).2.

Definition save_trace (env : Env) : list event :=
  trace (saveAnalysisToHistory env [] st0).2.

(** Two environments in which the collaborators answer alike: the write of
    the upload, the transcription process, the language model and the
    cleanup of the success path.  The clock, the working directory and the
    outcome of the history append are left free. *)
Definition same_collaborators (e1 e2 : Env) : Prop :=
  write_tmp_fault e1 = write_tmp_fault e2 /\
  python e1 = python e2 /\
  chat e1 = chat e2 /\
  unlink_fault e1 = unlink_fault e2.

(** Two environments that differ at most in what the language model says. *)
Definition same_but_chat (e1 e2 : Env) : Prop :=
  cwd e1 = cwd e2 /\ now_tmp e1 = now_tmp e2 /\ now_hist e1 = now_hist e2 /\
  write_tmp_fault e1 = write_tmp_fault e2 /\ python e1 = python e2 /\
  mkdir_fault e1 = mkdir_fault e2 /\ write_hist_fault e1 = write_hist_fault e2 /\
  unlink_fault e1 = unlink_fault e2 /\ cleanup_fault e1 = cleanup_fault e2.

(** Equality of two results on every field but [timestamp]. *)
Definition same_except_timestamp (a b : obj) : Prop :=
  forall k, k <> "timestamp" -> get k a = get k b.

(** The shape the specification gives to the result object, field by field. *)
Definition has_key (k : string) (o : obj) : bool :=
  match get k o with Some _ => true | None => false end.

Definition has_keys (ks : list string) (v : option json) : bool :=
  match v with
  | Some (JObj o) => forallb (fun k => has_key k o) ks
  | _ => false
  end.

Definition speaker_scores_shape (v : option json) : bool :=
  match v with
  | Some (JObj per_speaker) =>
      forallb (fun kv => has_keys ["pace_score"; "confidence_score";
                                   "pause_score"; "overall_score"] (Some kv.2))
              per_speaker
  | _ => false
  end.

Definition spec_result_shape (v : json) : bool :=
  match v with
  | JObj o =>
      has_key "transcription" o && has_key "sentiment" o
      && has_keys ["speaker_segments"; "speaker_stats"; "total_speakers"]
                  (get "speaker_analysis" o)
      && has_keys ["overall_score"; "speaker_scores"; "improvement_suggestions"]
                  (get "comparison" o)
      && match get "comparison" o with
         | Some (JObj c) => speaker_scores_shape (get "speaker_scores" c)
         | _ => false
         end
      && forallb (fun kv => bool_decide (kv.1 ∈ ["transcription"; "sentiment";
                                                 "speaker_analysis"; "comparison"]))
                 o
  | _ => false
  end.

End Props.

(** ** Sample requests and environments *)

Module Samples.
Import Route Props.

Definition upload : Request :=
  mkRequest (inr [("audio", FormFile (mkFile "call.wav" "audio/wav" 2
                                        [Byte.x52; Byte.x49]))]).

Definition minimal_result : obj :=
  [("success", JBool true); ("transcription", JStr "hello there")].

(** Every call succeeds; the clock reads 1700000000000 and then
    1700000000005. *)
Definition env_ok : Env :=
  mkEnv ["srv"; "app"] 1700000000000 1700000000005 None
        (PyClose (Some 0%Z) "" (Json minimal_result))
        (inr (Some "Overall Rating: 8")) None None None None.

(** As [env_ok], with the history directory not writable. *)
Definition env_history_down : Env :=
  with_history_faults None (Some (ThrownError "Error" "EACCES: permission denied"))
                      env_ok.

(** As [env_ok], on another day and in another directory. *)
Definition env_later : Env :=
  mkEnv ["home"; "app"] 1800000000000 1800000000009 None
        (PyClose (Some 0%Z) "" (Json minimal_result))
        (inr (Some "Overall Rating: 8")) None None None None.

(** As [env_ok], with the language model wording its critique differently. *)
Definition env_other_critique : Env :=
  mkEnv ["srv"; "app"] 1700000000000 1700000000005 None
        (PyClose (Some 0%Z) "" (Json minimal_result))
        (inr (Some "Overall Rating: 7")) None None None None.

Definition old_record : obj :=
  [("success", JBool true); ("transcription", JStr "an earlier call");
   ("sentiment", JStr "Overall Rating: 9")].

(** A history that already holds a record written at 1700000000005. *)
Definition history_with_record : gmap path content :=
  {[ record_path env_ok 1700000000005 := JsonText old_record ]}.



(** A speaker whose four scores are all one half. *)
Definition half_scores : View.SpeakerScores :=
  View.mkSpeakerScores (1 # 2) (1 # 2) (1 # 2) (1 # 2) None.

Definition half_comparison : View.Comparison :=
  View.mkComparison (1 # 2) [("SPEAKER_00", half_scores)] [].

(** Weights that sum to 1 with two of them negative. *)
Definition skewed_config : Scoring.ScoringConfig :=
  Scoring.mkScoringConfig 150 80 220 2 (- (1 # 2)) (- (1 # 2)) 1 5 3.

(** A speaker at the ideal pace, without pauses, transcribed with
    confidence 0. *)
Definition ideal_pace_stats : Scoring.SpeakerStats :=
  Scoring.mkSpeakerStats 10 4 150 0 [].

(** Speaker B of the specification's example: 4 words in 2 seconds. *)
Definition speaker_b_stats : Scoring.SpeakerStats :=
  Scoring.mkSpeakerStats 4 2 120 (95 # 100) [].

End Samples.

(** ** The JSON part of the child's output

    [runPythonScript] applies the pattern [\{[\s\S]*\}] to what the child
    printed: the match runs from the first opening brace to the last closing
    brace after it. *)

Module Stdout.
Import Stdlib.Strings.Ascii.
Import Route.

Fixpoint has_char (c : Ascii.ascii) (s : string) : bool :=
  match s with
  | "" => false
  | String a s' => Ascii.eqb a c || has_char c s'
  end.

(** What follows the first opening brace. *)
Fixpoint after_first_open (s : string) : option string :=
  match s with
  | "" => None
  | String a s' => if Ascii.eqb a "{"%char then Some s' else after_first_open s'
  end.

(** The longest prefix that ends in a closing brace. *)
Fixpoint upto_last_close (s : string) : option string :=
  match s with
  | "" => None
  | String a s' =>
      match upto_last_close s' with
      | Some t => Some (String a t)
      | None => if Ascii.eqb a "}"%char then Some (String a "") else None
      end
  end.

(** [stdout.match(/\{[\s\S]*\}/)], as the matched text or [None] for
    [null]. *)
Definition jsonMatch (stdout : string) : option string :=
  match after_first_open stdout with
  | Some rest =>
      match upto_last_close rest with
      | Some t => Some (String "{"%char t)
      | None => None
      end
  | None => None
  end.

Section Parse.

(** [JSON.parse] on a text that starts and ends with a brace: the object, or
    the message of the SyntaxError. *)
Variable JSON_parse : string -> string + obj.

(** The [try] block of the [close] handler, up to [resolve(result)]. *)
Definition read_stdout (stdout : string) : stdout_json :=
  match jsonMatch stdout with
  | None => NoJson
  | Some text =>
      match JSON_parse text with
      | inl msg => BadJson msg
      | inr result => Json result
      end
  end.

End Parse.

End Stdout.

(** ** The page: [handleUpload] and what [Home] renders *)

Module Page.
Import Route.

(** The four [useState] cells.  A cell that [setTranscription] or
    [setSentiment] filled with [undefined] is [None]. *)
Record HomeState : Type := mkHome {
  isLoading : bool;
  error : option string;
  transcription : option json;
  sentiment : option json
}.

Definition initial : HomeState :=
  mkHome false None (Some (JStr "")) (Some (JStr "")).

(** What [fetch] and [response.json()] give: a rejected request, or a status
    with the parsed body (or the error of parsing it). *)
Inductive fetched : Type :=
| FetchRejected (e : thrown)
| Fetched (status : N) (parsed : thrown + json).

(** [response.ok] *)
Definition response_ok (status : N) : bool :=
  (200 <=? status)%N && (status <=? 299)%N.

(** [data.k]: a property of an object, [undefined] on the other values, a
    TypeError on [null]. *)
Definition prop (k : string) (data : json) : thrown + option json :=
  match data with
  | JObj o => inr (get k o)
  | JNull =>
      inl (ThrownError "TypeError"
             ("Cannot read properties of null (reading '" +:+ k +:+ "')"))
  | _ => inr None
  end.

(** [v || fallback], as the message of a new [Error]. *)
Definition or_else (v : option json) (fallback : string) : string :=
  match v with
  | Some x => if truthy x then to_String x else fallback
  | None => fallback
  end.

(** The [try] block of [handleUpload]: what it hands to [setTranscription]
    and [setSentiment], or what it throws. *)
Definition handleUpload_try (f : fetched)
  : thrown + (option json * option json) :=
  match f with
  | FetchRejected e => inl e
  | Fetched status parsed =>
      match parsed with
      | inl e => inl e
      | inr data =>
          if negb (response_ok status) then
            match prop "error" data with
            | inl e => inl e
            | inr err => inl (mkError (or_else err "Failed to process audio file"))
            end
          else
            match prop "error" data with
            | inl e => inl e
            | inr err =>
                let shown :=
                  match prop "transcription" data, prop "sentiment" data with
                  | inr t, inr s => inr (t, s)
                  | inl e, _ => inl e
                  | _, inl e => inl e
                  end in
                match err with
                | Some x => if truthy x then inl (mkError (to_String x)) else shown
                | None => shown
                end
            end
      end
  end.

(** The state while the request is under way: [setIsLoading(true)] and
    [setError(null)]; the earlier result stays. *)
Definition loading (st : HomeState) : HomeState :=
  mkHome true None (transcription st) (sentiment st).

(** The state once [handleUpload] has run, [finally] included. *)
Definition handleUpload (f : fetched) (st : HomeState) : HomeState :=
  match handleUpload_try f with
  | inr (t, s) => mkHome false None t s
  | inl e =>
      mkHome false
             (Some (match e with
                    | ThrownError _ m => m
                    | ThrownOther _ => "Failed to process audio file"
                    end))
             (Some (JStr "")) (Some (JStr ""))
  end.

(** The response of the route, as [fetch] delivers it to the page. *)
Definition of_response (r : response) : fetched :=
  Fetched (status r) (inr (body r)).

(** The props of [TranscriptionResult]; [speaker_analysis] is kept as the
    speakers of its [speaker_stats]. *)
Record ResultProps : Type := mkProps {
  props_transcription : option json;
  props_sentiment : option json;
  props_speaker_analysis : option (list string);
  props_comparison : option View.Comparison
}.

Inductive block : Type :=
| Spinner
| ErrorBox (msg : string)
| ResultView (props : ResultProps).

(** The conditional blocks of [Home]: [isLoading && ..], [error && ..] and
    [transcription && ..]. *)
Definition Home_blocks (st : HomeState) : list block :=
  (if isLoading st then [Spinner] else [])
  ++ match error st with
     | Some m => if String.eqb m "" then [] else [ErrorBox m]
     | None => []
     end
  ++ (if truthy_opt (transcription st)
      then [ResultView (mkProps (transcription st) (sentiment st) None None)]
      else []).

(** The score cards [TranscriptionResult] renders for its props. *)
Definition score_cards (props : ResultProps) : list (string * list View.card) :=
  match props_speaker_analysis props with
  | Some speakers => View.analytics_scores speakers (props_comparison props)
  | None => []
  end
  ++ View.performance_blocks (props_comparison props).

End Page.

(** ** Times, differences and the overall bar of TranscriptionResult.tsx

    Numbers are rationals, as in [View], and the arithmetic is exact.  That
    is what the doubles of the code compute for times below 2^52 seconds:
    there the quotient by 60 is rounded by less than its distance to the
    next integer, and remainder, floor and rounding are exact.  Larger times
    are outside this model. *)

Module Format.
Import Stdlib.Strings.Ascii.

Local Open Scope Q_scope.

(** Truncation towards zero. *)
Definition trunc (x : Q) : Z :=
  if Qle_bool 0 x then Qfloor x else Qceiling x.

(** [x % m]: the remainder has the sign of [x]. *)
Definition js_rem (x m : Q) : Q := x - m * inject_Z (trunc (x / m)).

(** [s.padStart(n, c)] *)
Definition padStart (n : nat) (c : Ascii.ascii) (s : string) : string :=
  Nat.iter (n - String.length s) (String c) s.

Definition formatTime (seconds : Q) : string :=
  let minutes := Qfloor (seconds / 60) in
  let remainingSeconds := View.Math_round (js_rem seconds 60) in
  pretty minutes +:+ ":" +:+ padStart 2 "0"%char (pretty remainingSeconds).

(** The sentence under a speaker's pace comparison: the direction and the
    number of words per minute it names. *)
Inductive direction : Type := Faster | Slower.

Definition pace_sentence (difference : Q) : direction * Z :=
  if Qlt_le_dec 0 difference
  then (Faster, View.Math_round difference)
  else (Slower, View.Math_round (Qabs difference)).

(** The "Overall Score" line: [Math.round(comparison.overall_score)]
    followed by a per cent sign. *)
Definition overall_bar (c : View.Comparison) : View.card :=
  View.mkCard "Overall Score"
              (inject_Z (View.Math_round (View.comparison_overall_score c))) "%".

End Format.

(** ** More sample inputs *)

Module MoreSamples.
Import Route Props.

(** A form whose [audio] field is a text. *)
Definition text_upload : Request :=
  mkRequest (inr [("audio", FormString "call.wav")]).

(** A body that is not form data. *)
Definition json_request : Request :=
  mkRequest (inl (ThrownError "TypeError" "Could not parse content as FormData."))
.

(** The transcription process crashes. *)
Definition env_crash : Env :=
  mkEnv ["srv"; "app"] 1700000000000 1700000000005 None
        (PyClose (Some 1%Z) "Traceback" NoJson)
        (inr (Some "Overall Rating: 8")) None None None None.

(** A parser that accepts the one text [{}]. *)
Definition parse_empty_object (text : string) : string + obj :=
  if String.eqb text "{}" then inr [] else inl "Unexpected token".

(** As [Samples.env_ok], one millisecond later at the history append. *)
Definition env_next_ms : Env :=
  mkEnv ["srv"; "app"] 1700000000000 1700000000006 None
        (PyClose (Some 0%Z) "" (Json Samples.minimal_result))
        (inr (Some "Overall Rating: 8")) None None None None.

(** As [Samples.env_ok], with a language model that replies with the empty
    text. *)
Definition env_silent_model : Env :=
  mkEnv ["srv"; "app"] 1700000000000 1700000000005 None
        (PyClose (Some 0%Z) "" (Json Samples.minimal_result))
        (inr (Some "")) None None None None.

End MoreSamples.

(** ** The helpers of the handler *)

Import Route Props.

Ltac run_handler :=
  unfold POST, POST_M, POST_try, POST_catch, saveAnalysisToHistory,
    analyzeSentiment, runPythonScript, writeFile, mkdir, unlink, try_catch,
    console_log, console_error, set_tempAudioPath, get_tempAudioPath, await,
    bind, ret, throw, emit, NextResponse_json; simpl.

Lemma runPythonScript_eq env s a st :
  runPythonScript env s a st
  = (py_result env,
     mkState (files st) (trace st ++ py_trace env s a) (tempAudioPath st)).
Proof.
  unfold py_result, py_trace. run_handler.
  destruct (python env) as [e|code stderr out]; simpl;
    [|destruct code as [[|c|c]|], out as [|msg|r]; simpl;
      destruct (String.eqb stderr ""); simpl];
    rewrite <- ?app_assoc; reflexivity.
Qed.

Lemma analyzeSentiment_eq env text st :
  analyzeSentiment env text st
  = (sentiment_result env,
     mkState (files st) (trace st ++ [EChat text]) (tempAudioPath st)).
Proof.
  unfold sentiment_result. run_handler.
  destruct (chat env) as [e|[s|]]; reflexivity.
Qed.

Lemma saveAnalysisToHistory_eq env r st :
  saveAnalysisToHistory env r st
  = (Ok tt,
     mkState (saved_files env r (files st)) (trace st ++ save_trace env)
             (tempAudioPath st)).
Proof.
  unfold saved_files, save_trace. run_handler.
  destruct (mkdir_fault env), (write_hist_fault env); simpl;
    rewrite <- ?app_assoc; reflexivity.
Qed.

(** The append writes the record or nothing. *)
Lemma saved_files_cases env r fs :
  saved_files env r fs = fs \/
  saved_files env r fs = <[history_path env := JsonText r]> fs.
Proof.
  unfold saved_files. run_handler.
  destruct (mkdir_fault env), (write_hist_fault env); simpl; auto.
Qed.

Lemma saved_files_ok env r fs :
  mkdir_fault env = None -> write_hist_fault env = None ->
  saved_files env r fs = <[history_path env := JsonText r]> fs.
Proof. intros Hm Hw. unfold saved_files. run_handler. now rewrite Hm, Hw. Qed.

Lemma saved_files_keeps env r fs p :
  is_Some (fs !! p) -> is_Some (saved_files env r fs !! p).
Proof.
  intros H. destruct (saved_files_cases env r fs) as [-> | ->]; [done|].
  rewrite lookup_insert_is_Some. destruct (decide (history_path env = p)); auto.
Qed.

Lemma saved_files_other env r fs p :
  p <> history_path env -> saved_files env r fs !! p = fs !! p.
Proof.
  intros H. destruct (saved_files_cases env r fs) as [-> | ->]; [done|].
  now rewrite lookup_insert_ne.
Qed.

Lemma save_trace_mkdir env : In (EMkdir (historyDir env)) (save_trace env).
Proof.
  unfold save_trace. run_handler.
  destruct (mkdir_fault env), (write_hist_fault env); simpl; auto.
Qed.

Lemma save_trace_warning env :
  mkdir_fault env <> None \/ write_hist_fault env <> None ->
  In history_warning (save_trace env).
Proof.
  unfold save_trace, history_warning. run_handler.
  destruct (mkdir_fault env), (write_hist_fault env); simpl; intuition congruence.
Qed.

(** The names of the upload and of a history record never coincide. *)
Lemma temp_path_not_record env env' t : temp_path env <> record_path env' t.
Proof.
  unfold temp_path, record_path, join. intros H.
  apply app_inj_tail in H as [_ H]. discriminate H.
Qed.

Lemma history_path_record env : history_path env = record_path env (now_hist env).
Proof. reflexivity. Qed.

Lemma string_length_app (s x : string) :
  String.length (s +:+ x) = String.length s + String.length x.
Proof. induction s as [|a s IH]; simpl; [reflexivity | now rewrite IH]. Qed.

Lemma string_app_inv_tail (x s s' : string) : s +:+ x = s' +:+ x -> s = s'.
Proof.
  intros H.
  assert (Hlen : String.length s = String.length s').
  { apply (f_equal String.length) in H.
    rewrite !string_length_app in H. lia. }
  revert s' H Hlen.
  induction s as [|a s IH]; intros [|a' s'] H Hlen; simpl in *;
    try discriminate; [reflexivity|].
  injection H as -> H. f_equal. apply IH; [assumption | lia].
Qed.

Lemma record_path_inj env t t' : record_path env t = record_path env t' -> t = t'.
Proof.
  unfold record_path, join, history_filename. intros H.
  apply app_inj_tail in H as [_ H].
  apply (inj (String.app "analysis_")) in H.
  apply string_app_inv_tail in H.
  now apply (inj pretty) in H.
Qed.

#[local] Arguments runPythonScript : simpl never.
#[local] Arguments analyzeSentiment : simpl never.
#[local] Arguments saveAnalysisToHistory : simpl never.
#[local] Arguments temp_path : simpl never.
#[local] Arguments history_path : simpl never.
#[local] Arguments historyDir : simpl never.
#[local] Arguments pythonScript : simpl never.
#[local] Arguments POST_catch : simpl never.

Lemma py_result_python e1 e2 : python e1 = python e2 -> py_result e1 = py_result e2.
Proof. unfold py_result, runPythonScript. now intros ->. Qed.

Lemma sentiment_result_chat e1 e2 :
  chat e1 = chat e2 -> sentiment_result e1 = sentiment_result e2.
Proof. unfold sentiment_result, analyzeSentiment. now intros ->. Qed.

Lemma upload_survives (env : Env) (r : obj) (fs : gmap path content)
    (p : path) (c : content) :
  is_Some (saved_files env r (<[p := c]> fs) !! p).
Proof. apply saved_files_keeps. rewrite lookup_insert_eq. eauto. Qed.

(** *** The catch block *)

Ltac unfold_steps :=
  unfold writeFile, unlink, try_catch, console_log, console_error,
    set_tempAudioPath, get_tempAudioPath, await, bind, ret, throw, emit,
    NextResponse_json.

(** It answers with the message of what it caught, whatever becomes of its
    cleanup. *)
Lemma POST_catch_response env e st :
  (POST_catch env e st).1 = Ok (mkResponse 500 (error_body (error_message e))).
Proof.
  unfold POST_catch. unfold_steps. cbn.
  destruct (tempAudioPath st) as [p|]; cbn; [|reflexivity].
  destruct (cleanup_fault env); cbn; [reflexivity|].
  destruct (files st !! p); reflexivity.
Qed.

(** It touches no file but the upload. *)
Lemma POST_catch_frame env e st (q : path) :
  tempAudioPath st <> Some q ->
  files (POST_catch env e st).2 !! q = files st !! q.
Proof.
  intros Hq. unfold POST_catch. unfold_steps. cbn.
  destruct (tempAudioPath st) as [p|]; cbn; [|reflexivity].
  destruct (cleanup_fault env); cbn; [reflexivity|].
  destruct (files st !! p) eqn:Hp; cbn; [|reflexivity].
  apply lookup_delete_ne. congruence.
Qed.

(** Its cleanup removes the upload unless [unlink] itself fails. *)
Lemma POST_catch_cleanup env e st (p : path) :
  tempAudioPath st = Some p -> cleanup_fault env = None ->
  files (POST_catch env e st).2 !! p = None.
Proof.
  intros Hp Hc. unfold POST_catch. unfold_steps. cbn. rewrite Hp, Hc. cbn.
  destruct (files st !! p) eqn:Hl; cbn; [apply lookup_delete_eq | exact Hl].
Qed.

(** It logs and unlinks, nothing else. *)
Lemma POST_catch_trace env e st :
  exists tr, trace (POST_catch env e st).2 = trace st ++ tr /\
    (forall ev, In ev tr ->
       is_log ev = true \/ Some ev = EUnlink <$> tempAudioPath st) /\
    (forall p, tempAudioPath st = Some p -> In (EUnlink p) tr).
Proof.
  unfold POST_catch. unfold_steps. cbn.
  destruct (tempAudioPath st) as [p|]; cbn;
    [destruct (cleanup_fault env); cbn; [|destruct (files st !! p); cbn]|];
    rewrite <- ?app_assoc; cbn; eexists; (split; [reflexivity|]);
    (split; [cbn; intros ev Hev; intuition (subst; cbn; auto)
            | intros ? [= <-]; cbn; auto]).
Qed.

(** *** The paths through the handler *)

Ltac exec :=
  repeat first
    [ rewrite runPythonScript_eq
    | rewrite analyzeSentiment_eq
    | rewrite saveAnalysisToHistory_eq
    | progress cbn ].

Ltac upload_present :=
  match goal with
  | |- context [saved_files ?e ?r (<[?p := ?c]> ?fs) !! ?p] =>
      let H := fresh "Hkept" in
      destruct (upload_survives e r fs p c) as [? H]; rewrite H; clear H; cbn
  end.

(** Runs [POST env request fs] down each of its paths: rejected form data,
    no audio field, an audio field that is no file, a failed write of the
    upload, a failed transcription, a failure reported by the engine, a failed
    critique, a failed cleanup, and the complete run. *)
Ltac explore env request :=
  let fd := fresh "fd" in
  let r := fresh "result" in
  unfold POST, POST_M, try_catch, POST_try; unfold_steps; cbn;
  destruct (formData request) as [?e|fd] eqn:Hform; cbn;
  [ | destruct (no_audio (form_get "audio" fd)) eqn:Hno; cbn;
      [ | destruct (form_get "audio" fd) as [[?s|?f]|] eqn:Hget; cbn;
          [ | destruct (write_tmp_fault env) as [?e|] eqn:Hwrite; cbn;
              [ | exec; destruct (py_result env) as [r|?e] eqn:Hpy; cbn;
                  [ destruct (truthy_opt (get "success" r)) eqn:Hsucc; cbn;
                    [ exec; destruct (sentiment_result env) as [?s|?e] eqn:Hsent; cbn;
                      [ exec; destruct (unlink_fault env) as [?e|] eqn:Hunlink; cbn;
                        [ | upload_present ]
                      | ]
                    | ]
                  | ] ]
          | discriminate Hno ] ] ].

Lemma get_set_eq k v (o : obj) : get k (set k v o) = Some v.
Proof.
  induction o as [|[k' v'] o IH]; simpl.
  - now rewrite String.eqb_refl.
  - destruct (String.eqb k k') eqn:E; simpl; rewrite ?E, ?String.eqb_refl; auto.
Qed.

Lemma get_set_ne k k' v (o : obj) : k <> k' -> get k' (set k v o) = get k' o.
Proof.
  intros Hne. induction o as [|[k0 v0] o IH]; simpl.
  - destruct (String.eqb_spec k' k); congruence.
  - destruct (String.eqb_spec k k0) as [<-|Hk]; simpl.
    + destruct (String.eqb_spec k' k); congruence.
    + destruct (String.eqb_spec k' k0); auto.
Qed.

Lemma py_result_Ok env result :
  py_result env = Ok result <->
  exists stderr, python env = PyClose (Some 0%Z) stderr (Json result).
Proof.
  unfold py_result. run_handler. split.
  - destruct (python env) as [e|code stderr out]; simpl; [discriminate|].
    destruct code as [[|c|c]|], out as [|msg|r]; simpl;
      destruct (String.eqb stderr ""); simpl; try discriminate;
      intros [= ->]; eauto.
  - intros [stderr ->]. simpl. destruct (String.eqb stderr ""); reflexivity.
Qed.


Lemma py_trace_no_mkdir env s a d : ~ In (EMkdir d) (py_trace env s a).
Proof.
  unfold py_trace. run_handler.
  destruct (python env) as [e|code stderr out]; simpl;
    [|destruct code as [[|c|c]|], out as [|msg|r]; simpl;
      destruct (String.eqb stderr ""); simpl];
    intuition discriminate.
Qed.

(** The handler always returns a response. *)
Lemma POST_returns env request fs : exists r, (POST env request fs).1 = Ok r.
Proof. explore env request; rewrite ?POST_catch_response; cbn; eauto. Qed.

(** The response is a function of the request and of what the collaborators
    answer. *)
Lemma POST_response_collaborators e1 e2 request fs1 fs2 :
  same_collaborators e1 e2 ->
  (POST e1 request fs1).1 = (POST e2 request fs2).1.
Proof.
  intros (Hw & Hp & Hc & Hu).
  apply py_result_python in Hp. apply sentiment_result_chat in Hc.
  unfold POST, POST_M, try_catch, POST_try. unfold_steps. cbn.
  destruct (formData request) as [e|fd]; cbn;
    [now rewrite !POST_catch_response|].
  destruct (no_audio (form_get "audio" fd)); cbn; [reflexivity|].
  destruct (form_get "audio" fd) as [[s|f]|]; cbn;
    try now rewrite !POST_catch_response.
  rewrite <- Hw. destruct (write_tmp_fault e1); cbn;
    [now rewrite !POST_catch_response|].
  exec. rewrite <- Hp. destruct (py_result e1) as [result|e]; cbn;
    [|now rewrite !POST_catch_response].
  destruct (truthy_opt (get "success" result)); cbn;
    [|now rewrite !POST_catch_response].
  exec. rewrite <- Hc. destruct (sentiment_result e1) as [s|e]; cbn;
    [|now rewrite !POST_catch_response].
  exec. rewrite <- Hu. destruct (unlink_fault e1); cbn;
    [now rewrite !POST_catch_response|].
  repeat upload_present. reflexivity.
Qed.

Import Samples.

(** C10: a request whose form data has no [audio] field is answered with
    status 400 and the message [No audio file provided]; the files are left
    as they were and the only effects are two console messages: no file is
    written, no process is spawned and no history record is created. *)
Theorem no_audio_field_rejected env request fs fd :
  formData request = inr fd ->
  form_get "audio" fd = None ->
  (POST env request fs).1
    = Ok (mkResponse 400 (JObj [("error", JStr "No audio file provided")])) /\
  files (POST env request fs).2 = fs /\
  trace (POST env request fs).2
    = [ELog LogInfo "Processing audio transcription request...";
       ELog LogInfo "No audio file provided"] /\
  Forall (fun ev => is_log ev = true) (trace (POST env request fs).2).
Proof.
  intros Hfd Hget. unfold POST, POST_M, try_catch, POST_try. unfold_steps.
  cbn. rewrite Hfd. cbn. rewrite Hget. cbn.
  repeat split; repeat constructor.
Qed.

(** The theorem at a form with a [note] field only. *)
Lemma no_audio_field_rejected_witness :
  (POST env_ok (mkRequest (inr [("note", FormString "hi")])) ∅).1
    = Ok (mkResponse 400 (JObj [("error", JStr "No audio file provided")])) /\
  files (POST env_ok (mkRequest (inr [("note", FormString "hi")])) ∅).2 = ∅.
Proof.
  pose proof (no_audio_field_rejected env_ok
                (mkRequest (inr [("note", FormString "hi")])) ∅
                [("note", FormString "hi")] eq_refl eq_refl) as (H1 & H2 & _).
  split; [exact H1 | exact H2].
Defined.

(** Discards the paths that the hypotheses on the request exclude. *)
Ltac on_path :=
  simplify_eq;
  try match goal with
      | Hno : no_audio (form_get _ ?fd) = true, Ha : form_get _ ?fd = _ |- _ =>
          rewrite Ha in Hno; discriminate Hno
      end.

Ltac catch_trace :=
  match goal with
  | |- context [POST_catch ?env ?e ?st] =>
      let tr := fresh "tr" in
      let Htr := fresh "Htr" in
      let Hall := fresh "Hall" in
      let Hunl := fresh "Hunl" in
      destruct (POST_catch_trace env e st) as (tr & Htr & Hall & Hunl);
      rewrite ?Htr in *; cbn in Hall, Hunl
  end.

(** The append is not attempted on a path that fails before it. *)
Ltac no_mkdir H :=
  exfalso; cbn in H; rewrite ?in_app_iff in H; cbn in H;
  repeat match type of H with
         | _ \/ _ => destruct H as [H|H]
         end;
  try discriminate H; try contradiction;
  try (eapply py_trace_no_mkdir; eassumption);
  match goal with
  | Hall : forall ev, In ev ?tr -> _ |- _ =>
      destruct (Hall _ H) as [Hl|Hl]; discriminate Hl
  end.

(** C1: in a run that attempts the history append ([mkdir] of the history
    directory is in its trace) and in which the append raises, the response
    is the one of the same run with a working append; the failure is
    reported by the warning [Failed to save analysis to history:]; and when
    the cleanup of the upload succeeds that response is the success response
    with the assembled result. *)
Theorem history_failure_is_not_fatal env request fs :
  In (EMkdir (historyDir env)) (trace (POST env request fs).2) ->
  mkdir_fault env <> None \/ write_hist_fault env <> None ->
  (POST env request fs).1
    = (POST (with_history_faults None None env) request fs).1 /\
  In history_warning (trace (POST env request fs).2) /\
  (unlink_fault env = None ->
   exists result s,
     py_result env = Ok result /\ sentiment_result env = Ok s /\
     (POST env request fs).1
       = Ok (mkResponse 200 (JObj (set "sentiment" (JStr s) result)))).
Proof.
  intros Hreach Hfault. split.
  { apply POST_response_collaborators. repeat split. }
  revert Hreach. explore env request; intros Hreach.
  all: try catch_trace.
  all: try solve [no_mkdir Hreach].
  all: pose proof (save_trace_warning env Hfault) as Hwarn.
  all: split; [cbn; rewrite ?in_app_iff; cbn; tauto|].
  - discriminate.
  - eauto.
Qed.

(** The theorem at [env_history_down]: the history directory is not
    writable. *)
Lemma history_failure_is_not_fatal_witness :
  In (EMkdir (historyDir env_history_down))
     (trace (POST env_history_down upload ∅).2) /\
  (mkdir_fault env_history_down <> None \/
   write_hist_fault env_history_down <> None) /\
  (POST env_history_down upload ∅).1
    = (POST (with_history_faults None None env_history_down) upload ∅).1.
Proof.
  assert (H1 : In (EMkdir (historyDir env_history_down))
                  (trace (POST env_history_down upload ∅).2))
    by (vm_compute; tauto).
  assert (H2 : mkdir_fault env_history_down <> None \/
               write_hist_fault env_history_down <> None)
    by (right; discriminate).
  split; [exact H1|]. split; [exact H2|].
  exact (proj1 (history_failure_is_not_fatal env_history_down upload ∅ H1 H2)).
Defined.

(** C2, counterexample: the provider answers with a [success] flag and a
    transcription only; the run succeeds and returns that object with the
    sentiment added, which has neither [speaker_analysis] nor [comparison]
    and carries the provider's [success] field. *)
Lemma provider_result_passes_through_unshaped :
  (POST env_ok upload ∅).1
    = Ok (mkResponse 200
            (JObj [("success", JBool true);
                   ("transcription", JStr "hello there");
                   ("sentiment", JStr "Overall Rating: 8")])) /\
  spec_result_shape
    (JObj [("success", JBool true);
           ("transcription", JStr "hello there");
           ("sentiment", JStr "Overall Rating: 8")]) = false.
Proof. split; vm_compute; reflexivity. Qed.

(** C2, amended: the body of every success response is the object the
    transcription provider printed, whose [success] field is truthy, with the
    field [sentiment] set to the critique; every other field, among them
    [speaker_analysis] and [comparison], is in the output exactly as the
    provider gave it, if it gave it. *)
Theorem successful_response_is_provider_result env request fs (b : json) :
  (POST env request fs).1 = Ok (mkResponse 200 b) ->
  exists stderr result s,
    python env = PyClose (Some 0%Z) stderr (Json result) /\
    truthy_opt (get "success" result) = true /\
    sentiment_result env = Ok s /\
    b = JObj (set "sentiment" (JStr s) result) /\
    get "sentiment" (set "sentiment" (JStr s) result) = Some (JStr s) /\
    forall k, k <> "sentiment" ->
      get k (set "sentiment" (JStr s) result) = get k result.
Proof.
  explore env request; rewrite ?POST_catch_response; cbn; intros [= Hb];
    try discriminate.
  apply py_result_Ok in Hpy as [stderr Hpy].
  exists stderr, result0, s. repeat split; auto using get_set_eq.
  intros k Hk. apply get_set_ne. congruence.
Qed.

(** The theorem at [env_ok]. *)
Lemma successful_response_is_provider_result_witness :
  (POST env_ok upload ∅).1
    = Ok (mkResponse 200 (JObj (set "sentiment" (JStr "Overall Rating: 8")
                                    minimal_result))) /\
  exists stderr result s,
    python env_ok = PyClose (Some 0%Z) stderr (Json result) /\
    JObj (set "sentiment" (JStr "Overall Rating: 8") minimal_result)
      = JObj (set "sentiment" (JStr s) result).
Proof.
  assert (H : (POST env_ok upload ∅).1
              = Ok (mkResponse 200
                      (JObj (set "sentiment" (JStr "Overall Rating: 8")
                                 minimal_result))))
    by (vm_compute; reflexivity).
  split; [exact H|].
  destruct (successful_response_is_provider_result env_ok upload ∅ _ H)
    as (stderr & result & s & H1 & _ & _ & H2 & _).
  eauto.
Defined.

(** C4, the handler at the failing input: the history holds a record
    written at 1700000000005 and the clock reads 1700000000005 again when
    the next analysis is saved; [writeFile] replaces the earlier record, so
    the store is not append-only there. *)
Lemma record_overwritten_within_a_millisecond :
  history_with_record !! record_path env_ok (now_hist env_ok)
    = Some (JsonText old_record) /\
  files (POST env_ok upload history_with_record).2
    !! record_path env_ok (now_hist env_ok)
  <> history_with_record !! record_path env_ok (now_hist env_ok).
Proof. split; vm_compute; [reflexivity | discriminate]. Qed.

Lemma record_lookup_frame (env : Env) (t : N) (c : content)
    (r : obj) (fs : gmap path content) :
  t <> now_hist env ->
  saved_files env r (<[temp_path env := c]> fs) !! record_path env t
  = fs !! record_path env t.
Proof.
  intros Ht. rewrite saved_files_other.
  - apply lookup_insert_ne, temp_path_not_record.
  - rewrite history_path_record. intros H. now apply record_path_inj in H.
Qed.

(** X27: a run of the handler leaves every history record whose time stamp
    differs from the clock reading of its own append as it was: neither
    changed nor deleted (nor created). *)
Theorem history_records_preserved env request fs t :
  t <> now_hist env ->
  files (POST env request fs).2 !! record_path env t
  = fs !! record_path env t.
Proof.
  intros Ht. pose proof (temp_path_not_record env env t) as Hne.
  explore env request.
  all: try (rewrite POST_catch_frame by (cbn; congruence); cbn).
  all: try reflexivity.
  all: rewrite ?lookup_delete_ne by exact Hne.
  all: rewrite ?record_lookup_frame by exact Ht.
  all: rewrite ?lookup_insert_ne by exact Hne.
  all: reflexivity.
Qed.

(** The theorem at the record of 1700000000005, with the next analysis
    saved into the same directory one millisecond later: the record is
    there before and unchanged after. *)
Lemma history_records_preserved_witness :
  (1700000000005 <> now_hist MoreSamples.env_next_ms)%N /\
  history_with_record !! record_path MoreSamples.env_next_ms 1700000000005
    = Some (JsonText old_record) /\
  files (POST MoreSamples.env_next_ms upload history_with_record).2
    !! record_path MoreSamples.env_next_ms 1700000000005
  = history_with_record !! record_path MoreSamples.env_next_ms 1700000000005.
Proof.
  assert (H : (1700000000005 <> now_hist MoreSamples.env_next_ms)%N)
    by (vm_compute; discriminate).
  split; [exact H|]. split; [vm_compute; reflexivity|].
  exact (history_records_preserved MoreSamples.env_next_ms upload
           history_with_record 1700000000005 H).
Defined.




(** C6, counterexample: two runs on the same request, the same provider
    result, the same files and the same clock, in which the language model
    words its critique differently, return results that differ in the field
    [sentiment]. *)
Lemma sentiment_not_determined_by_inputs :
  same_but_chat env_ok env_other_critique /\
  exists a b,
    (POST env_ok upload ∅).1 = Ok (mkResponse 200 (JObj a)) /\
    (POST env_other_critique upload ∅).1 = Ok (mkResponse 200 (JObj b)) /\
    ~ same_except_timestamp a b.
Proof.
  split; [repeat split|].
  eexists _, _. split; [vm_compute; reflexivity|].
  split; [vm_compute; reflexivity|].
  intros H. specialize (H "sentiment" ltac:(discriminate)). discriminate H.
Qed.

(** C6, amended: the response is determined by the request and by what the
    collaborators answer (the write of the upload, the transcription process,
    the language model, the cleanup); it does not depend on the clock, on
    the working directory, on the files present or on the outcome of the
    history append. *)
Theorem response_determined_by_collaborators e1 e2 request fs1 fs2 :
  same_collaborators e1 e2 ->
  (POST e1 request fs1).1 = (POST e2 request fs2).1.
Proof. apply POST_response_collaborators. Qed.

(** The theorem at [env_ok] and [env_later]: another day, another
    directory, another history. *)
Lemma response_determined_by_collaborators_witness :
  same_collaborators env_ok env_later /\
  (POST env_ok upload ∅).1 = (POST env_later upload history_with_record).1.
Proof.
  assert (H : same_collaborators env_ok env_later) by (repeat split).
  split; [exact H|].
  exact (response_determined_by_collaborators env_ok env_later upload ∅
           history_with_record H).
Defined.

(** C9: in a run that wrote the temporary audio file, [unlink] is called on
    it before the handler returns; the file is gone whenever the response is
    the success response, and on every path whose cleanup in the [catch]
    block does not itself fail; and the outcome of that cleanup never changes
    the response. *)
Theorem temp_file_cleaned_up env request fs fd f c :
  formData request = inr fd ->
  form_get "audio" fd = Some (FormFile f) ->
  write_tmp_fault env = None ->
  In (EUnlink (temp_path env)) (trace (POST env request fs).2) /\
  (forall b, (POST env request fs).1 = Ok (mkResponse 200 b) ->
     files (POST env request fs).2 !! temp_path env = None) /\
  (cleanup_fault env = None ->
     files (POST env request fs).2 !! temp_path env = None) /\
  (POST (with_cleanup_fault c env) request fs).1 = (POST env request fs).1.
Proof.
  intros Hfd Haudio Hw.
  split; [|split; [|split]].
  - explore env request; on_path.
    all: try catch_trace.
    all: try (specialize (Hunl _ eq_refl)).
    all: cbn; rewrite ?in_app_iff; cbn; tauto.
  - intros b. explore env request; on_path;
      rewrite ?POST_catch_response; try discriminate.
    intros _. apply lookup_delete_eq.
  - intros Hc. explore env request; on_path.
    all: try (apply POST_catch_cleanup; [reflexivity | exact Hc]).
    apply lookup_delete_eq.
  - apply POST_response_collaborators. repeat split.
Qed.

(** The theorem at [env_ok]. *)
Lemma temp_file_cleaned_up_witness :
  In (EUnlink (temp_path env_ok)) (trace (POST env_ok upload ∅).2) /\
  files (POST env_ok upload ∅).2 !! temp_path env_ok = None.
Proof.
  pose proof (temp_file_cleaned_up env_ok upload ∅ _
                (mkFile "call.wav" "audio/wav" 2 [Byte.x52; Byte.x49]) None
                eq_refl eq_refl eq_refl) as (H1 & _ & H2 & _).
  split; [exact H1 | exact (H2 eq_refl)].
Defined.

(** ** The score cards *)

(** C3, the component at a speaker whose scores are all 0.5: the
    "Performance Scores" block prints each score as 50 per cent, that is as
    the 0-1 fraction it is given; the "Performance" block prints the same
    fields as 0.5 out of 10, where a 0-1 value of 0.5 would be 5 out of
    10.  Read back, the same [pace_score] stands for 1/2 in one block and
    for 1/20 in the other. *)
Theorem score_cards_use_two_scales :
  View.analytics_scores ["SPEAKER_00"] (Some half_comparison)
    = [("SPEAKER_00",
        [View.mkCard "Pace Score" 50 "%";
         View.mkCard "Confidence Score" 50 "%";
         View.mkCard "Pause Score" 50 "%"])] /\
  View.performance_blocks (Some half_comparison)
    = [("SPEAKER_00",
        [View.mkCard "Pace Score" (1 # 2) "/10";
         View.mkCard "Confidence Score" (1 # 2) "/10";
         View.mkCard "Pause Score" (1 # 2) "/10";
         View.mkCard "Overall Score" (1 # 2) "/10"])] /\
  (forall c, View.card_of "Pace Score" (View.performance_scores half_scores) = Some c ->
     exists q, View.fraction_of c = Some q /\ (q == 1 # 2)%Q) /\
  (forall c, View.card_of "Pace Score" (View.speaker_performance half_scores) = Some c ->
     exists q, View.fraction_of c = Some q /\ (q == 1 # 20)%Q /\
               ~ (View.shown c == 10 * View.pace_score half_scores)%Q).
Proof.
  split; [reflexivity|]. split; [reflexivity|]. split.
  - intros c [= <-]. eexists. split; [reflexivity|]. reflexivity.
  - intros c [= <-]. eexists. split; [reflexivity|]. split; [reflexivity|].
    discriminate.
Qed.

(** ** The scoring rules *)

Import Scoring.
Local Open Scope Q_scope.

Lemma config_ok_weights c :
  config_ok c = true ->
  weight_pace c + weight_confidence c + weight_pause c == 1 /\
  pace_low c < pace_high c.
Proof.
  unfold config_ok. intros H. apply andb_prop in H as [Hw Hb].
  apply Qeq_bool_iff in Hw. split; [exact Hw|].
  apply Qnot_le_lt. intros Hle. apply Qle_bool_iff in Hle.
  rewrite Hle in Hb. discriminate.
Qed.

Lemma half_range_pos c : pace_low c < pace_high c -> 0 < half_range c.
Proof. unfold half_range. intros H. apply Qlt_shift_div_l; lra. Qed.

Lemma Qdiv_nonneg a b : 0 <= a -> 0 <= b -> 0 <= a / b.
Proof.
  intros Ha Hb. unfold Qdiv. apply Qmult_le_0_compat; [exact Ha|].
  now apply Qinv_le_0_compat.
Qed.

(** The examples of the specification: at the defaults, 75 wpm scores 0
    and 120 wpm scores 1 - 30/70. *)
Example pace_score_speaker_a : pace_score_of default_config 75 == 0.
Proof. reflexivity. Qed.

Example pace_score_speaker_b : pace_score_of default_config 120 == 4 # 7.
Proof. reflexivity. Qed.

Lemma pace_score_in_unit c wpm :
  0 < half_range c -> in_unit (pace_score_of c wpm).
Proof.
  intros Hh. unfold in_unit, pace_score_of. split.
  - apply Q.le_max_l.
  - apply Q.max_lub; [lra|].
    assert (0 <= Qabs (wpm - ideal_pace_wpm c) / half_range c).
    { apply Qdiv_nonneg; [apply Qabs_nonneg | lra]. }
    lra.
Qed.

Lemma sum_durations_nonneg ps :
  Forall (fun p => 0 <= duration p) ps -> 0 <= sum_durations ps.
Proof.
  induction 1 as [|p ps Hp _ IH]; simpl; [lra|]. lra.
Qed.

Lemma pause_score_in_unit st : valid_stats st -> in_unit (pause_score_of st).
Proof.
  intros (_ & Hd & Hp). unfold in_unit, pause_score_of. split.
  - apply Q.le_max_l.
  - apply Q.max_lub; [lra|].
    assert (H1 : 0 <= Qmin (1 # 2)
                   ((5 # 100) * inject_Z (Z.of_nat (length (pauses st))))).
    { apply Q.min_glb; [lra|]. apply Qmult_le_0_compat; [lra|].
      change 0 with (inject_Z 0). rewrite <- Zle_Qle. lia. }
    assert (H2 : 0 <= Qmin (1 # 2) (sum_durations (pauses st) / total_duration st)).
    { apply Q.min_glb; [lra|]. apply Qdiv_nonneg; [|exact Hd].
      now apply sum_durations_nonneg. }
    lra.
Qed.

Lemma overall_in_unit c p cf pz :
  weight_pace c + weight_confidence c + weight_pause c == 1 ->
  0 <= weight_pace c -> 0 <= weight_confidence c -> 0 <= weight_pause c ->
  in_unit p -> in_unit cf -> in_unit pz ->
  in_unit (overall_score_of c p cf pz).
Proof.
  unfold in_unit, overall_score_of. intros Hs H1 H2 H3 [? ?] [? ?] [? ?].
  split; nra.
Qed.

(** C7, counterexample: the weights (2, -1/2, -1/2) sum to 1 and pass the
    configuration check; for a speaker at the ideal pace, without pauses and
    with confidence 0 the overall score is 3/2. *)
Lemma negative_weights_escape_unit_interval :
  config_ok skewed_config = true /\
  valid_stats ideal_pace_stats /\
  exists s, score ideal_pace_stats skewed_config = inr s /\
            ~ in_unit (overall_score s).
Proof.
  split; [reflexivity|]. split.
  { unfold valid_stats, ideal_pace_stats; simpl. repeat split; try lra. constructor. }
  eexists. split; [reflexivity|].
  unfold in_unit. vm_compute. intros [_ H]. apply H. reflexivity.
Qed.

(** C7, amended: for valid statistics and a configuration that passes the
    check, [score] returns a score whose pace, confidence and pause
    sub-scores lie in [0,1]; the overall score lies in [0,1] when, moreover,
    no weight is negative. *)
Theorem score_within_unit_interval st c :
  valid_stats st ->
  config_ok c = true ->
  exists s, score st c = inr s /\
    in_unit (pace_score s) /\
    in_unit (confidence_score s) /\
    in_unit (pause_score s) /\
    (0 <= weight_pace c -> 0 <= weight_confidence c -> 0 <= weight_pause c ->
     in_unit (overall_score s)).
Proof.
  intros Hst Hc. unfold score. rewrite Hc.
  apply config_ok_weights in Hc as [Hsum Hb]. apply half_range_pos in Hb.
  eexists. split; [reflexivity|]. simpl.
  pose proof (pace_score_in_unit c (words_per_minute st) Hb) as Hp.
  pose proof (pause_score_in_unit st Hst) as Hz.
  assert (Hcf : in_unit (confidence_score_of st)) by (apply Hst).
  repeat split; try apply Hp; try apply Hcf; try apply Hz.
  all: intros; now apply overall_in_unit.
Qed.

(** The theorem at speaker B of the specification's example, with the
    default configuration. *)
Lemma score_within_unit_interval_witness :
  valid_stats speaker_b_stats /\
  config_ok default_config = true /\
  exists s, score speaker_b_stats default_config = inr s /\
            in_unit (pace_score s) /\ in_unit (overall_score s).
Proof.
  assert (H1 : valid_stats speaker_b_stats).
  { unfold valid_stats, speaker_b_stats; simpl. repeat split; try lra. constructor. }
  assert (H2 : config_ok default_config = true) by reflexivity.
  split; [exact H1|]. split; [exact H2|].
  destruct (score_within_unit_interval speaker_b_stats default_config H1 H2)
    as (s & Hs & Hp & _ & _ & Ho).
  exists s. split; [exact Hs|]. split; [exact Hp|].
  apply Ho; simpl; lra.
Defined.


(** * Further properties of the code *)

(** ** The JSON part of the child's output *)

Import Stdlib.Strings.Ascii.
Import Stdout.
Local Close Scope Q_scope.
Local Open Scope string_scope.

Lemma string_app_nil_l (s : string) : "" +:+ s = s.
Proof. reflexivity. Qed.

Lemma string_app_cons (a : Ascii.ascii) (s t : string) :
  String a s +:+ t = String a (s +:+ t).
Proof. reflexivity. Qed.

Lemma has_char_app c (a b : string) :
  has_char c (a +:+ b) = has_char c a || has_char c b.
Proof.
  induction a as [|x a IH]; [reflexivity|].
  rewrite string_app_cons. cbn. now rewrite IH, orb_assoc.
Qed.

Lemma after_first_open_split s rest :
  after_first_open s = Some rest ->
  exists pre, s = pre +:+ String "{" rest /\ has_char "{" pre = false.
Proof.
  revert rest. induction s as [|a s IH]; simpl; intros rest H; [discriminate|].
  destruct (Ascii.eqb a "{") eqn:Ea.
  - injection H as <-. apply Ascii.eqb_eq in Ea as ->. now exists "".
  - destruct (IH _ H) as (pre & -> & Hpre).
    exists (String a pre). simpl. now rewrite Ea, Hpre.
Qed.

Lemma after_first_open_skip pre rest :
  has_char "{" pre = false ->
  after_first_open (pre +:+ String "{" rest) = Some rest.
Proof.
  induction pre as [|a pre IH]; simpl; [reflexivity|].
  intros H. apply orb_false_elim in H as [Ea Hpre]. rewrite Ea. auto.
Qed.

Lemma upto_last_close_none s :
  upto_last_close s = None <-> has_char "}" s = false.
Proof.
  induction s as [|a s IH]; simpl; [tauto|].
  destruct (upto_last_close s) as [t|].
  - split; [discriminate|]. intros H. apply orb_false_elim in H as [_ H].
    apply IH in H. discriminate.
  - destruct (Ascii.eqb a "}"); simpl; [split; discriminate|].
    split; [intros _; now apply IH | reflexivity].
Qed.

Lemma upto_last_close_split s t :
  upto_last_close s = Some t ->
  exists body post,
    t = body +:+ "}" /\ s = t +:+ post /\ has_char "}" post = false.
Proof.
  revert t. induction s as [|a s IH]; simpl; intros t H; [discriminate|].
  destruct (upto_last_close s) as [t'|] eqn:Hs.
  - injection H as <-. destruct (IH _ eq_refl) as (body & post & -> & -> & Hp).
    exists (String a body), post. auto.
  - destruct (Ascii.eqb a "}") eqn:Ea; [|discriminate].
    injection H as <-. apply Ascii.eqb_eq in Ea as ->.
    exists "", s. repeat split. now apply upto_last_close_none.
Qed.

Lemma upto_last_close_keep body post :
  has_char "}" post = false ->
  upto_last_close (body +:+ String "}" post) = Some (body +:+ "}").
Proof.
  intros Hp. apply upto_last_close_none in Hp.
  induction body as [|a body IH];
    rewrite ?string_app_cons, ?string_app_nil_l;
    cbn [upto_last_close]; [now rewrite Hp | now rewrite IH].
Qed.

(** X1: the text that [runPythonScript] hands to [JSON.parse] starts at the
    first opening brace of the output and ends at its last closing brace;
    everything between the two, further braces included, is part of it. *)
Theorem jsonMatch_first_to_last s m :
  jsonMatch s = Some m ->
  exists pre body post,
    s = pre +:+ m +:+ post /\
    m = "{" +:+ body +:+ "}" /\
    has_char "{" pre = false /\
    has_char "}" post = false.
Proof.
  unfold jsonMatch. intros H.
  destruct (after_first_open s) as [rest|] eqn:Ho; [|discriminate].
  destruct (upto_last_close rest) as [t|] eqn:Hc; [|discriminate].
  injection H as <-.
  apply after_first_open_split in Ho as (pre & -> & Hpre).
  apply upto_last_close_split in Hc as (body & post & -> & -> & Hpost).
  exists pre, body, post. repeat split; auto.
Qed.

Lemma jsonMatch_first_to_last_witness :
  jsonMatch "Loading {a} and {b}." = Some "{a} and {b}" /\
  exists pre body post,
    "Loading {a} and {b}." = pre +:+ "{a} and {b}" +:+ post /\
    "{a} and {b}" = "{" +:+ body +:+ "}" /\
    has_char "{" pre = false /\ has_char "}" post = false.
Proof.
  split; [reflexivity|].
  exact (jsonMatch_first_to_last "Loading {a} and {b}." "{a} and {b}" eq_refl).
Defined.

(** X2: log lines around the JSON are dropped: when nothing before the
    object has an opening brace and nothing after it a closing brace, the
    match is the object, whatever it holds. *)
Theorem jsonMatch_strips_noise pre body post :
  has_char "{" pre = false ->
  has_char "}" post = false ->
  jsonMatch (pre +:+ "{" +:+ body +:+ "}" +:+ post) = Some ("{" +:+ body +:+ "}").
Proof.
  intros Hpre Hpost.
  change (jsonMatch (pre +:+ String "{" (body +:+ String "}" post))
          = Some (String "{" (body +:+ "}"))).
  unfold jsonMatch.
  rewrite (after_first_open_skip pre _ Hpre).
  now rewrite (upto_last_close_keep body post Hpost).
Qed.

Lemma jsonMatch_strips_noise_witness :
  jsonMatch ("Loading model... " +:+ "{" +:+ "x" +:+ "}" +:+ " done")
    = Some ("{" +:+ "x" +:+ "}").
Proof. exact (jsonMatch_strips_noise "Loading model... " "x" " done" eq_refl eq_refl). Defined.

(** X3: an output without a brace pair is never parsed: with exit code 0
    [runPythonScript] rejects with [Failed to parse Python output: Error: No
    JSON found in output], whatever [JSON.parse] would accept, and leaves the
    files alone. *)
Theorem output_without_braces_rejected parse env script audio st stderr stdout :
  has_char "{" stdout = false \/ has_char "}" stdout = false ->
  python env = PyClose (Some 0%Z) stderr (read_stdout parse stdout) ->
  (runPythonScript env script audio st).1
    = Throw (ThrownError "Error"
        "Failed to parse Python output: Error: No JSON found in output") /\
  files (runPythonScript env script audio st).2 = files st.
Proof.
  intros Hno Hpy.
  assert (Hm : jsonMatch stdout = None).
  { unfold jsonMatch. destruct (after_first_open stdout) as [rest|] eqn:Ho; [|reflexivity].
    apply after_first_open_split in Ho as (pre & -> & Hpre).
    rewrite !has_char_app in Hno. cbn in Hno. rewrite orb_true_r in Hno.
    destruct Hno as [Hno|Hno]; [discriminate|].
    apply orb_false_elim in Hno as [_ Hno].
    apply upto_last_close_none in Hno. now rewrite Hno. }
  unfold read_stdout in Hpy. rewrite Hm in Hpy.
  unfold runPythonScript. run_handler. rewrite Hpy. simpl.
  destruct (String.eqb stderr ""); simpl; auto.
Qed.

Lemma output_without_braces_rejected_witness :
  has_char "{" "done" = false /\
  (runPythonScript
     (mkEnv [] 0 0 None
        (PyClose (Some 0%Z) "" (read_stdout MoreSamples.parse_empty_object "done"))
        (inr None) None None None None) [] [] st0).1
  = Throw (ThrownError "Error"
        "Failed to parse Python output: Error: No JSON found in output").
Proof.
  split; [reflexivity|].
  exact (proj1 (output_without_braces_rejected MoreSamples.parse_empty_object
           (mkEnv [] 0 0 None
              (PyClose (Some 0%Z) ""
                 (read_stdout MoreSamples.parse_empty_object "done"))
              (inr None) None None None None)
           [] [] st0 "" "done" (or_introl eq_refl) eq_refl)).
Defined.

(** ** More on the route *)

Lemma py_trace_events env s a ev :
  In ev (py_trace env s a) -> is_log ev = true \/ ev = ESpawn s a.
Proof.
  unfold py_trace. run_handler.
  destruct (python env) as [e|code stderr out]; simpl;
    [|destruct code as [[|c|c]|], out as [|msg|r]; simpl;
      destruct (String.eqb stderr ""); simpl];
    intuition (subst; auto).
Qed.

Lemma save_trace_events env ev :
  In ev (save_trace env) ->
  is_log ev = true \/ ev = EMkdir (historyDir env)
  \/ ev = EWriteFile (history_path env).
Proof.
  unfold save_trace. run_handler.
  destruct (mkdir_fault env), (write_hist_fault env); simpl;
    intuition (subst; auto).
Qed.

Ltac catch_trace_in H :=
  match type of H with
  | context [POST_catch ?env ?e ?st] =>
      let tr := fresh "tr" in
      let Htr := fresh "Htr" in
      let Hall := fresh "Hall" in
      let Hunl := fresh "Hunl" in
      destruct (POST_catch_trace env e st) as (tr & Htr & Hall & Hunl);
      rewrite Htr in H; clear Htr; cbn in Hall, Hunl
  end.

(** Splits a membership in the trace of a path into its cases: one of the
    events the handler issues itself, an event of a helper, an event of the
    catch block. *)
Ltac trace_cases H :=
  cbn in H; rewrite ?in_app_iff in H; cbn in H;
  repeat match type of H with
         | _ \/ _ => destruct H as [H|H]
         | False => contradiction
         end;
  try discriminate H;
  try match type of H with
      | In _ (py_trace _ _ _) =>
          apply py_trace_events in H as [H|H]; cbn in H; try discriminate H
      | In _ (save_trace _) =>
          apply save_trace_events in H as [H|[H|H]]; cbn in H;
          try discriminate H
      | In _ ?tr =>
          match goal with
          | Hall : forall ev, In ev tr -> _ |- _ =>
              destruct (Hall _ H) as [Hl|Hl]; cbn in Hl; discriminate Hl
          end
      end.

(** X4: [runPythonScript] resolves exactly when the child exits with code 0
    and its output holds a JSON object, and then with that object; a
    non-zero exit code rejects even if a result was printed.  It changes no
    file and does not assign [tempAudioPath]. *)
Theorem runPythonScript_resolves_iff env script audio st result :
  ((runPythonScript env script audio st).1 = Ok result <->
   exists stderr, python env = PyClose (Some 0%Z) stderr (Json result)) /\
  files (runPythonScript env script audio st).2 = files st /\
  tempAudioPath (runPythonScript env script audio st).2 = tempAudioPath st.
Proof.
  rewrite runPythonScript_eq. cbn. split; [apply py_result_Ok | auto].
Qed.


Lemma success_sentiment_reply env request fs o :
  (POST env request fs).1 = Ok (mkResponse 200 (JObj o)) ->
  exists reply s,
    chat env = inr reply /\
    s = match reply with
        | Some c => if String.eqb c "" then "No sentiment analysis available" else c
        | None => "No sentiment analysis available"
        end /\
    get "sentiment" o = Some (JStr s).
Proof.
  explore env request; rewrite ?POST_catch_response; cbn; intros [= <-].
  revert Hsent. unfold sentiment_result. run_handler.
  destruct (chat env) as [e|reply]; simpl; [discriminate|].
  intros [= <-]. eexists reply, _. split; [reflexivity|].
  split; [reflexivity|]. apply get_set_eq.
Qed.

(** X5: the [sentiment] field of every success response is the reply of the
    language model in that run, or the text [No sentiment analysis
    available] when the reply is empty or missing; it is never the empty
    text, and it takes the place of a [sentiment] field of the provider's
    own. *)
Theorem success_carries_sentiment env request fs o :
  (POST env request fs).1 = Ok (mkResponse 200 (JObj o)) ->
  exists reply s,
    chat env = inr reply /\
    s = match reply with
        | Some c => if String.eqb c "" then "No sentiment analysis available" else c
        | None => "No sentiment analysis available"
        end /\
    get "sentiment" o = Some (JStr s) /\
    s <> "".
Proof.
  intros H.
  destruct (success_sentiment_reply env request fs o H)
    as (reply & s & Hc & Hs & Hg).
  exists reply, s. repeat split; try assumption.
  subst s. destruct reply as [c|]; [|discriminate].
  destruct (String.eqb_spec c ""); [discriminate | assumption].
Qed.

(** The theorem at a language model that replies with the empty text: the
    field holds the fallback text. *)
Lemma success_carries_sentiment_witness :
  (POST MoreSamples.env_silent_model upload ∅).1
    = Ok (mkResponse 200
            (JObj (set "sentiment" (JStr "No sentiment analysis available")
                       minimal_result))) /\
  chat MoreSamples.env_silent_model = inr (Some "") /\
  get "sentiment" (set "sentiment" (JStr "No sentiment analysis available")
                       minimal_result)
    = Some (JStr "No sentiment analysis available").
Proof.
  assert (H : (POST MoreSamples.env_silent_model upload ∅).1
              = Ok (mkResponse 200
                      (JObj (set "sentiment"
                                 (JStr "No sentiment analysis available")
                                 minimal_result))))
    by (vm_compute; reflexivity).
  split; [exact H|]. split; [reflexivity|].
  destruct (success_carries_sentiment MoreSamples.env_silent_model upload ∅
              (set "sentiment" (JStr "No sentiment analysis available")
                   minimal_result) H)
    as (reply & s & Hc & Hs & Hg & _).
  injection Hc as <-. subst s. exact Hg.
Defined.

(** X6: what a success response returns is what the history holds: when the
    append works, the record named after its clock reading is the response
    body, and it is still there after the cleanup of the upload. *)
Theorem returned_result_is_persisted env request fs o :
  (POST env request fs).1 = Ok (mkResponse 200 (JObj o)) ->
  mkdir_fault env = None ->
  write_hist_fault env = None ->
  files (POST env request fs).2 !! history_path env = Some (JsonText o).
Proof.
  intros H Hm Hw. revert H.
  explore env request; rewrite ?POST_catch_response; cbn; intros [= <-].
  rewrite lookup_delete_ne
    by (rewrite history_path_record; apply temp_path_not_record).
  rewrite saved_files_ok by assumption. apply lookup_insert_eq.
Qed.

Lemma returned_result_is_persisted_witness :
  files (POST env_ok upload ∅).2 !! history_path env_ok
  = Some (JsonText (set "sentiment" (JStr "Overall Rating: 8") minimal_result)).
Proof.
  refine (returned_result_is_persisted env_ok upload ∅ _ _ eq_refl eq_refl).
  vm_compute. reflexivity.
Defined.

(** X7: a run of the handler touches two paths at most, the temporary upload
    and the history record of its own clock reading; every other file is
    left as it was, on every path through the handler. *)
Theorem handler_touches_two_paths env request fs (p : path) :
  p <> temp_path env ->
  p <> history_path env ->
  files (POST env request fs).2 !! p = fs !! p.
Proof.
  intros Ht Hh. explore env request.
  all: try (rewrite POST_catch_frame by (cbn; congruence); cbn).
  all: try reflexivity.
  all: rewrite ?lookup_delete_ne by congruence.
  all: rewrite ?saved_files_other by exact Hh.
  all: rewrite ?lookup_insert_ne by congruence.
  all: reflexivity.
Qed.

(** The theorem at a file that is there: a record of another directory's
    history, while a run in [/home/app] writes and removes its own files. *)
Lemma handler_touches_two_paths_witness :
  history_with_record !! record_path env_ok 1700000000005
    = Some (JsonText old_record) /\
  files (POST env_later upload history_with_record).2
    !! record_path env_ok 1700000000005
  = history_with_record !! record_path env_ok 1700000000005.
Proof.
  split; [vm_compute; reflexivity|].
  apply (handler_touches_two_paths env_later upload history_with_record
           (record_path env_ok 1700000000005)); vm_compute; discriminate.
Defined.

(** X8: the transcription process is spawned only once the upload is on
    disk, and on that file: an [audio] file was posted, its write did not
    fail, and the process is given [tempAudioPath]. *)
Theorem spawn_only_after_upload env request fs script audio :
  In (ESpawn script audio) (trace (POST env request fs).2) ->
  (exists fd f, formData request = inr fd /\
                form_get "audio" fd = Some (FormFile f)) /\
  write_tmp_fault env = None /\
  script = pythonScript env /\
  audio = temp_path env.
Proof.
  explore env request; intros H.
  all: try catch_trace_in H.
  all: trace_cases H.
  all: injection H as -> ->; eauto 10.
Qed.

Lemma spawn_only_after_upload_witness :
  In (ESpawn (pythonScript env_ok) (temp_path env_ok))
     (trace (POST env_ok upload ∅).2) /\
  write_tmp_fault env_ok = None.
Proof.
  assert (H : In (ESpawn (pythonScript env_ok) (temp_path env_ok))
                 (trace (POST env_ok upload ∅).2)) by (vm_compute; tauto).
  split; [exact H|].
  exact (proj1 (proj2 (spawn_only_after_upload env_ok upload ∅ _ _ H))).
Defined.

(** X9: the language model is called only for a transcription that the
    provider reported as successful, and it is sent the [transcription]
    field of that result; a failed transcription costs no call. *)
Theorem chat_only_after_success env request fs text :
  In (EChat text) (trace (POST env request fs).2) ->
  exists stderr result,
    python env = PyClose (Some 0%Z) stderr (Json result) /\
    truthy_opt (get "success" result) = true /\
    text = get "transcription" result.
Proof.
  explore env request; intros H.
  all: try catch_trace_in H.
  all: trace_cases H.
  all: injection H as <-.
  all: apply py_result_Ok in Hpy as [stderr Hpy]; eauto.
Qed.

Lemma chat_only_after_success_witness :
  In (EChat (Some (JStr "hello there"))) (trace (POST env_ok upload ∅).2) /\
  exists stderr result,
    python env_ok = PyClose (Some 0%Z) stderr (Json result) /\
    Some (JStr "hello there") = get "transcription" result.
Proof.
  assert (H : In (EChat (Some (JStr "hello there")))
                 (trace (POST env_ok upload ∅).2)) by (vm_compute; tauto).
  split; [exact H|].
  destruct (chat_only_after_success env_ok upload ∅
              (Some (JStr "hello there")) H)
    as (stderr & result & H1 & _ & H3).
  exists stderr, result. split; [exact H1 | exact H3].
Defined.

(** X10: the history is written to only for a complete analysis: any
    [mkdir] or [writeFile] in the history directory comes after a successful
    transcription and a critique of it.  A run that fails before that leaves
    no record. *)
Theorem history_only_for_complete_analysis env request fs :
  In (EMkdir (historyDir env)) (trace (POST env request fs).2) \/
  In (EWriteFile (history_path env)) (trace (POST env request fs).2) ->
  exists stderr result s,
    python env = PyClose (Some 0%Z) stderr (Json result) /\
    truthy_opt (get "success" result) = true /\
    (analyzeSentiment env (get "transcription" result) st0).1 = Ok s.
Proof.
  assert (Hs : forall text s, sentiment_result env = Ok s ->
                 (analyzeSentiment env text st0).1 = Ok s)
    by (intros; now rewrite analyzeSentiment_eq).
  pose proof (temp_path_not_record env env (now_hist env)) as Hne.
  rewrite <- history_path_record in Hne.
  explore env request; intros [H|H].
  all: try catch_trace_in H.
  all: trace_cases H.
  all: try (injection H as H; congruence).
  all: apply py_result_Ok in Hpy as [stderr Hpy]; eauto 10.
Qed.

Lemma history_only_for_complete_analysis_witness :
  In (EMkdir (historyDir env_history_down))
     (trace (POST env_history_down upload ∅).2) /\
  exists stderr result,
    python env_history_down = PyClose (Some 0%Z) stderr (Json result).
Proof.
  assert (H : In (EMkdir (historyDir env_history_down))
                 (trace (POST env_history_down upload ∅).2))
    by (vm_compute; tauto).
  split; [exact H|].
  destruct (history_only_for_complete_analysis env_history_down upload ∅
              (or_introl H)) as (stderr & result & s & H1 & _).
  exists stderr, result. exact H1.
Defined.

Lemma response_cases env request fs :
  exists r, (POST env request fs).1 = Ok r /\
    ((status r = 200%N /\ exists o, body r = JObj o) \/
     (status r = 400%N /\ body r = JObj [("error", JStr "No audio file provided")]) \/
     (status r = 500%N /\ exists msg, body r = JObj [("error", JStr msg)])).
Proof.
  explore env request; rewrite ?POST_catch_response; cbn;
    eexists; (split; [reflexivity|]); cbn; eauto 10.
Qed.

(** X11: the handler always answers, and with one of three responses: the
    success response (status 200), the rejection of a request without audio
    (status 400) or a failure (status 500); the body of the last two holds
    exactly one field, [error], with a text. *)
Theorem response_is_200_400_or_500 env request fs :
  exists r, (POST env request fs).1 = Ok r /\
    ((status r = 200%N /\ exists o, body r = JObj o) \/
     (status r = 400%N /\ body r = JObj [("error", JStr "No audio file provided")]) \/
     (status r = 500%N /\ exists msg, body r = JObj [("error", JStr msg)])).
Proof. apply response_cases. Qed.

(** X12: an [audio] field that is a text, not a file, never reaches the
    disk: the empty text is answered like a missing field (status 400), any
    other text with status 500 and the TypeError of calling [arrayBuffer] on
    it; in both cases no file is written and nothing is spawned. *)
Theorem text_audio_field_rejected env request fs fd s :
  formData request = inr fd ->
  form_get "audio" fd = Some (FormString s) ->
  (POST env request fs).1
    = Ok (if String.eqb s ""
          then mkResponse 400 (JObj [("error", JStr "No audio file provided")])
          else mkResponse 500
                 (JObj [("error", JStr "audioFile.arrayBuffer is not a function")])) /\
  files (POST env request fs).2 = fs /\
  Forall (fun ev => is_log ev = true) (trace (POST env request fs).2).
Proof.
  intros Hfd Hget. unfold POST, POST_M, try_catch, POST_try, POST_catch.
  unfold_steps. cbn. rewrite Hfd. cbn. rewrite Hget. cbn.
  destruct (String.eqb s ""); cbn; repeat split; repeat constructor.
Qed.

Lemma text_audio_field_rejected_witness :
  (POST env_ok MoreSamples.text_upload ∅).1
    = Ok (mkResponse 500
            (JObj [("error", JStr "audioFile.arrayBuffer is not a function")])) /\
  files (POST env_ok MoreSamples.text_upload ∅).2 = ∅.
Proof.
  pose proof (text_audio_field_rejected env_ok MoreSamples.text_upload ∅
                _ "call.wav" eq_refl eq_refl) as (H1 & H2 & _).
  split; [exact H1 | exact H2].
Defined.

(** X13: a body that is not form data is answered with status 500 and the
    message of the error [request.formData()] threw ([Unknown error
    occurred] if it threw something that is no [Error]); nothing is written,
    spawned or cleaned up. *)
Theorem unreadable_form_rejected env request fs e :
  formData request = inl e ->
  (POST env request fs).1
    = Ok (mkResponse 500
            (JObj [("error",
                    JStr (match e with
                          | ThrownError _ m => m
                          | ThrownOther _ => "Unknown error occurred"
                          end))])) /\
  files (POST env request fs).2 = fs /\
  trace (POST env request fs).2
    = [ELog LogInfo "Processing audio transcription request...";
       ELog LogError "Error in transcription process:"].
Proof.
  intros Hfd. unfold POST, POST_M, try_catch, POST_try, POST_catch.
  unfold_steps. cbn. rewrite Hfd. cbn. destruct e; auto.
Qed.

Lemma unreadable_form_rejected_witness :
  (POST env_ok MoreSamples.json_request ∅).1
    = Ok (mkResponse 500
            (JObj [("error", JStr "Could not parse content as FormData.")])).
Proof.
  exact (proj1 (unreadable_form_rejected env_ok MoreSamples.json_request ∅ _ eq_refl)).
Defined.

(** X14: reading a field of [{...o, k: v}] gives [v] for [k] and the field
    of [o] for every other key. *)
Theorem get_after_set k k' v (o : obj) :
  get k' (set k v o) = if String.eqb k k' then Some v else get k' o.
Proof.
  destruct (String.eqb_spec k k') as [<-|Hne].
  - apply get_set_eq.
  - now apply get_set_ne.
Qed.

(** X15: [{...o, k: v}] keeps the fields of [o] in their order: a key that
    [o] has stays where it is, a new key goes last; no key is lost. *)
Theorem set_keeps_key_order k v (o : obj) :
  map fst (set k v o)
  = if has_key k o then map fst o else (map fst o ++ [k])%list.
Proof.
  unfold has_key. induction o as [|[k0 v0] o IH]; simpl; [reflexivity|].
  destruct (String.eqb_spec k k0) as [->|Hne]; simpl; [reflexivity|].
  rewrite IH. now destruct (get k o).
Qed.

(** X16: file names follow the clock injectively: two uploads stored at
    different clock readings have different temporary files, two analyses
    saved at different clock readings have different records, and a
    temporary file never has the name of a record. *)
Theorem names_follow_the_clock env env' t t' :
  (now_tmp env <> now_tmp env' -> temp_path env <> temp_path env') /\
  (t <> t' -> record_path env t <> record_path env t') /\
  temp_path env <> record_path env' t.
Proof.
  split; [|split].
  - intros Hne H. apply Hne. unfold temp_path, join, temp_filename in H.
    apply app_inj_tail in H as [_ H].
    apply (inj (String.app "audio-")) in H.
    apply string_app_inv_tail in H. now apply (inj pretty) in H.
  - intros Hne H. apply Hne. now apply record_path_inj in H.
  - apply temp_path_not_record.
Qed.

(** ** The page *)

Import Page.

Lemma handleUpload_cases f st :
  (exists t s, handleUpload f st = mkHome false None t s) \/
  (exists m, handleUpload f st = mkHome false (Some m) (Some (JStr "")) (Some (JStr ""))).
Proof.
  unfold handleUpload. destruct (handleUpload_try f) as [e|[t s]]; eauto.
Qed.


(** X18: a failure of the route reaches the user as its message: for every
    response of the handler other than the success response the page ends
    with that message in the error box (with [Failed to process audio file]
    if the message is empty) and with the earlier result cleared. *)
Theorem route_failure_shown_by_page env request fs r st :
  (POST env request fs).1 = Ok r ->
  status r <> 200%N ->
  exists msg,
    body r = JObj [("error", JStr msg)] /\
    handleUpload (of_response r) st
    = mkHome false
             (Some (if String.eqb msg "" then "Failed to process audio file"
                    else msg))
             (Some (JStr "")) (Some (JStr "")).
Proof.
  intros Hr Hs.
  destruct (response_cases env request fs) as (r' & Hr' & Hc).
  rewrite Hr in Hr'. injection Hr' as <-.
  destruct Hc as [[H200 _] | [[H400 Hb] | [H500 (msg & Hb)]]]; [congruence| |].
  - eexists. split; [exact Hb|].
    unfold handleUpload, handleUpload_try, of_response. rewrite H400, Hb.
    reflexivity.
  - exists msg. split; [exact Hb|].
    unfold handleUpload, handleUpload_try, of_response. rewrite H500, Hb. cbn.
    unfold or_else. cbn. destruct (String.eqb msg ""); reflexivity.
Qed.

Lemma route_failure_shown_by_page_witness :
  (POST env_ok MoreSamples.text_upload ∅).1
    = Ok (mkResponse 500
            (JObj [("error", JStr "audioFile.arrayBuffer is not a function")])) /\
  exists msg,
    handleUpload
      (of_response
         (mkResponse 500
            (JObj [("error", JStr "audioFile.arrayBuffer is not a function")])))
      initial
    = mkHome false
             (Some (if String.eqb msg "" then "Failed to process audio file"
                    else msg))
             (Some (JStr "")) (Some (JStr "")).
Proof.
  assert (H : (POST env_ok MoreSamples.text_upload ∅).1
              = Ok (mkResponse 500
                      (JObj [("error",
                              JStr "audioFile.arrayBuffer is not a function")])))
    by (vm_compute; reflexivity).
  split; [exact H|].
  destruct (route_failure_shown_by_page env_ok MoreSamples.text_upload ∅
              (mkResponse 500
                 (JObj [("error",
                         JStr "audioFile.arrayBuffer is not a function")]))
              initial H ltac:(discriminate)) as (msg & _ & Hm).
  exists msg. exact Hm.
Defined.





(** X21: the page hands [TranscriptionResult] the transcription and the
    sentiment only, so none of the score cards of the component is ever
    rendered by the page, whatever the route returned. *)
Theorem page_renders_no_score_cards st props :
  In (ResultView props) (Home_blocks st) ->
  score_cards props = [] /\
  props_transcription props = transcription st /\
  props_sentiment props = sentiment st.
Proof.
  unfold Home_blocks. rewrite !in_app_iff. intros [H|[H|H]].
  - destruct (isLoading st); cbn in H; intuition discriminate.
  - destruct (error st) as [m|]; [destruct (String.eqb m "")|]; cbn in H;
      intuition discriminate.
  - destruct (truthy_opt (transcription st)); cbn in H; [|contradiction].
    destruct H as [[= <-]|[]]. auto.
Qed.

Lemma page_renders_no_score_cards_witness :
  score_cards (mkProps (Some (JStr "hello there"))
                 (Some (JStr "Overall Rating: 8")) None None) = [].
Proof.
  refine (proj1 (page_renders_no_score_cards
                   (mkHome false None (Some (JStr "hello there"))
                      (Some (JStr "Overall Rating: 8")))
                   _ _)).
  cbn. left. reflexivity.
Defined.

(** ** Times, differences and the overall bar *)

Import Format.
Local Open Scope Q_scope.

Lemma Qfloor_eq (z : Z) (x : Q) :
  inject_Z z <= x -> x < inject_Z (z + 1) -> Qfloor x = z.
Proof.
  intros Hl Hu.
  pose proof (Qfloor_le x) as H1. pose proof (Qlt_floor x) as H2.
  assert (Ha : (Qfloor x < z + 1)%Z).
  { rewrite Zlt_Qlt. eapply Qle_lt_trans; eassumption. }
  assert (Hb : (z < Qfloor x + 1)%Z).
  { rewrite Zlt_Qlt. eapply Qle_lt_trans; eassumption. }
  lia.
Qed.

Lemma Math_round_bounds (x : Q) :
  x - (1 # 2) < inject_Z (View.Math_round x) /\
  inject_Z (View.Math_round x) <= x + (1 # 2).
Proof.
  unfold View.Math_round.
  pose proof (Qfloor_le (x + (1 # 2))) as H1.
  pose proof (Qlt_floor (x + (1 # 2))) as H2.
  rewrite inject_Z_plus in H2. change (inject_Z 1) with 1 in H2.
  split; lra.
Qed.

Lemma Math_round_eq (z : Z) (x : Q) :
  inject_Z z - (1 # 2) <= x -> x < inject_Z z + (1 # 2) ->
  View.Math_round x = z.
Proof.
  intros Hl Hu. unfold View.Math_round. apply Qfloor_eq.
  - lra.
  - rewrite inject_Z_plus. change (inject_Z 1) with 1. lra.
Qed.

Lemma Qfloor_div60 (x : Q) (m : Z) :
  inject_Z (60 * m) <= x -> x < inject_Z (60 * m) + 60 ->
  Qfloor (x / 60) = m.
Proof.
  intros Hl Hu. rewrite inject_Z_mult in Hl, Hu.
  change (inject_Z 60) with 60 in Hl, Hu.
  apply Qfloor_eq.
  - apply Qle_shift_div_l; lra.
  - apply Qlt_shift_div_r; [lra|].
    rewrite inject_Z_plus. change (inject_Z 1) with 1. lra.
Qed.

Lemma trunc_nonneg (x : Q) : 0 <= x -> trunc x = Qfloor x.
Proof.
  intros H. unfold trunc. apply Qle_bool_iff in H. now rewrite H.
Qed.

Lemma js_rem_60 (x : Q) (m : Z) :
  (0 <= m)%Z ->
  inject_Z (60 * m) <= x -> x < inject_Z (60 * m) + 60 ->
  js_rem x 60 = x - 60 * inject_Z m.
Proof.
  intros Hm Hl Hu. unfold js_rem. rewrite trunc_nonneg.
  - now rewrite (Qfloor_div60 x m).
  - assert (0 <= inject_Z (60 * m))
      by (change 0 with (inject_Z 0); rewrite <- Zle_Qle; lia).
    apply Qle_shift_div_l; lra.
Qed.

Lemma two_digits_nat (i : nat) :
  (i < 60)%nat ->
  String.length (padStart 2 "0" (pretty (Z.of_nat i))) = 2%nat.
Proof.
  intros Hi.
  do 60 (destruct i as [|i]; [vm_compute; reflexivity|]). lia.
Qed.

Lemma two_digits (k : Z) :
  (0 <= k < 60)%Z -> String.length (padStart 2 "0" (pretty k)) = 2%nat.
Proof.
  intros Hk. replace k with (Z.of_nat (Z.to_nat k)) by lia.
  apply two_digits_nat. lia.
Qed.

(** X22: for a whole number of seconds below 2^52 [formatTime] prints the
    minutes, a colon and the seconds left over, the latter always on two
    digits. *)
Theorem formatTime_whole_seconds (n : Z) :
  (0 <= n < 2 ^ 52)%Z ->
  formatTime (inject_Z n)
  = (pretty (n / 60)%Z +:+ ":" +:+ padStart 2 "0" (pretty (n mod 60)%Z))%string /\
  String.length (padStart 2 "0" (pretty (n mod 60)%Z)) = 2%nat.
Proof.
  intros [Hn _].
  pose proof (Z.div_mod n 60 ltac:(lia)) as Hdm.
  pose proof (Z.mod_pos_bound n 60 ltac:(lia)) as Hmod.
  assert (Hl : inject_Z (60 * (n / 60)) <= inject_Z n)
    by (rewrite <- Zle_Qle; lia).
  assert (Hu : inject_Z n < inject_Z (60 * (n / 60)) + 60).
  { assert (Hu0 : inject_Z n < inject_Z (60 * (n / 60) + 60))
      by (rewrite <- Zlt_Qlt; lia).
    now rewrite inject_Z_plus in Hu0. }
  split; [|now apply two_digits].
  unfold formatTime. cbv zeta.
  rewrite (Qfloor_div60 _ _ Hl Hu).
  rewrite (js_rem_60 _ (n / 60) ltac:(apply Z.div_pos; lia) Hl Hu).
  assert (Heq : inject_Z n == 60 * inject_Z (n / 60) + inject_Z (n mod 60)).
  { change 60 with (inject_Z 60).
    rewrite <- inject_Z_mult, <- inject_Z_plus, <- Hdm. reflexivity. }
  rewrite (Math_round_eq (n mod 60)); [reflexivity| |]; lra.
Qed.

(** The theorem at 125 seconds. *)
Lemma formatTime_whole_seconds_witness :
  (0 <= 125 < 2 ^ 52)%Z /\
  formatTime (inject_Z 125) = "2:05"%string.
Proof.
  assert (H : (0 <= 125 < 2 ^ 52)%Z) by (split; [lia | reflexivity]).
  split; [exact H|].
  exact (proj1 (formatTime_whole_seconds 125 H)).
Defined.

(** X23: [formatTime] rounds the seconds without carrying into the
    minutes: from half a second before a full minute on, it prints the
    seconds as [60]. *)
Theorem formatTime_prints_60_seconds (m : Z) (x : Q) :
  (0 <= m)%Z ->
  inject_Z (60 * m) + (119 # 2) <= x ->
  x < inject_Z (60 * m) + 60 ->
  formatTime x = (pretty m +:+ ":60")%string.
Proof.
  intros Hm Hl Hu.
  assert (Hl' : inject_Z (60 * m) <= x) by lra.
  unfold formatTime. cbv zeta.
  rewrite (Qfloor_div60 _ _ Hl' Hu), (js_rem_60 _ m Hm Hl' Hu).
  rewrite (Math_round_eq 60); [reflexivity| |];
    rewrite inject_Z_mult in Hl, Hu; change (inject_Z 60) with 60 in *; lra.
Qed.

Lemma formatTime_prints_60_seconds_witness :
  formatTime (119 # 2) = "0:60"%string.
Proof.
  apply (formatTime_prints_60_seconds 0 (119 # 2)); [lia | |];
    vm_compute; first [discriminate | reflexivity].
Defined.

(** X24: the sentence under a pace comparison never names a negative
    number; it says "faster" exactly for a positive difference, so equal
    paces read "0 words/min slower than average". *)
Theorem pace_sentence_direction (d : Q) :
  (0 <= snd (pace_sentence d))%Z /\
  (fst (pace_sentence d) = Faster <-> 0 < d) /\
  (d == 0 -> pace_sentence d = (Slower, 0%Z)).
Proof.
  unfold pace_sentence. destruct (Qlt_le_dec 0 d) as [Hp|Hn]; cbn [fst snd].
  - split; [|split].
    + pose proof (Math_round_bounds d) as [H _].
      assert (Hlt : - inject_Z 1 < inject_Z (View.Math_round d))
        by (change (inject_Z 1) with 1; lra).
      rewrite <- inject_Z_opp, <- Zlt_Qlt in Hlt. lia.
    + tauto.
    + intros H. lra.
  - split; [|split].
    + pose proof (Math_round_bounds (Qabs d)) as [H _].
      pose proof (Qabs_nonneg d) as Ha.
      assert (Hlt : - inject_Z 1 < inject_Z (View.Math_round (Qabs d)))
        by (change (inject_Z 1) with 1; lra).
      rewrite <- inject_Z_opp, <- Zlt_Qlt in Hlt. lia.
    + split; [discriminate | intros H; lra].
    + intros H. f_equal.
      assert (Ha : Qabs d == 0) by (rewrite H; reflexivity).
      apply Math_round_eq; change (inject_Z 0) with 0; lra.
Qed.

(** X25: the "Overall Score" line shows [comparison.overall_score] rounded,
    not scaled: for a score between 0 and 1 it reads 0 per cent below one
    half and 1 per cent from one half on. *)
Theorem overall_bar_of_a_fraction (c : View.Comparison) :
  0 <= View.comparison_overall_score c <= 1 ->
  View.unit_suffix (overall_bar c) = "%"%string /\
  (View.comparison_overall_score c < 1 # 2 -> View.shown (overall_bar c) = 0) /\
  (1 # 2 <= View.comparison_overall_score c -> View.shown (overall_bar c) = 1).
Proof.
  intros [H0 H1]. unfold overall_bar. cbn [View.shown View.unit_suffix].
  split; [reflexivity|]. split; intros H.
  - rewrite (Math_round_eq 0); [reflexivity| |]; change (inject_Z 0) with 0; lra.
  - rewrite (Math_round_eq 1); [reflexivity| |]; change (inject_Z 1) with 1; lra.
Qed.

Lemma overall_bar_of_a_fraction_witness :
  View.shown (overall_bar half_comparison) = 1.
Proof.
  refine (proj2 (proj2 (overall_bar_of_a_fraction half_comparison _)) _);
    cbn; lra.
Defined.

